(** * ftt_mix: the checkpointed event scanner and the relay loop of [script.py]

    A shallow embedding of the classes [EventScanner], [TransactionRelayer]
    and [BridgeListener] of [src/script.py], and of what runs before the
    loop: [ConfigLoader], [BlockchainConnector] and the main block.

    Python integers are unbounded, hence [Z].  The script talks to three
    things outside itself: the source node (block height, log filter), the
    destination node (nonce, transaction building, signing) and the state
    file.  Their answers are taken as inputs (records of responses), and
    every request the script issues is written to a trace, so that a
    statement can speak about what was asked as well as about what was
    returned.  Exceptions are values of [result]; [try]/[except] is
    [try_except].  The asynchronous [KeyboardInterrupt] is not modelled. *)

From Stdlib Require Import ZArith List Ascii String Bool Lia.
Import ListNotations.
Open Scope string_scope.
Open Scope list_scope.
Open Scope Z_scope.
Set Warnings "-register-all".

(** ** Python values, exceptions and results *)

(** The values an event log carries: integers, strings, byte strings and
    nested dictionaries ([event['args']]). *)
Inductive pyval : Type :=
| PInt (z : Z)
| PStr (s : string)
| PBytes (b : list Byte.byte)
| PDict (d : list (string * pyval)).

Definition pydict : Type := list (string * pyval).

(** [d[key]] on a dictionary literal: the last binding wins in Python, and
    a receipt has each key once, so the first match is the binding. *)
Fixpoint dict_get (key : string) (d : pydict) : option pyval :=
  match d with
  | [] => None
  | (k, v) :: rest => if String.eqb k key then Some v else dict_get key rest
  end.

(** The exception classes the script can meet.  All of them derive from
    [Exception]; [IOError] and [JSONDecodeError] are the two that
    [_load_state] names, [IOError] the one that [_save_state] names,
    [KeyError] the one that [process_event] names. *)
Inductive exn : Type :=
| KeyError (key : string)
| TypeError
| AttributeError
| ValueError
| IOError
| JSONDecodeError
| RPCError.

Inductive result (A : Type) : Type :=
| Ok (a : A)
| Raise (e : exn).
Arguments Ok {A} a.
Arguments Raise {A} e.

Definition is_IOError (e : exn) : bool :=
  match e with IOError => true | _ => false end.

Definition is_IOError_or_JSONDecodeError (e : exn) : bool :=
  match e with IOError | JSONDecodeError => true | _ => false end.

Definition is_KeyError (e : exn) : bool :=
  match e with KeyError _ => true | _ => false end.

(** [except Exception]. *)
Definition is_Exception (e : exn) : bool := true.

(** ** The outside world *)

(** A [LogReceipt] is a dictionary. *)
Definition LogReceipt : Type := pydict.

(** What [create_filter] hands back: an object whose [get_all_entries]
    either answers or raises. *)
Record EventFilter : Type := {
  get_all_entries : result (list LogReceipt)
}.

(** The source node as one cycle sees it. *)
Record SourceNode : Type := {
  block_number : result Z;
  create_filter : Z -> Z -> result EventFilter
}.

(** The state file.  [json.load] either fails, or yields a value that is
    an object or not; of an object only the member ['last_scanned_block']
    matters, which [_save_state] writes as an integer. *)
Inductive file_content : Type :=
| FMissing                       (* os.path.exists is False *)
| FUnreadable                    (* open or read raises IOError *)
| FCorrupt                       (* json.load raises JSONDecodeError *)
| FNotAnObject                   (* valid JSON, but no dict: no .get *)
| FObject (member : option Z).   (* a dict, with or without the member *)

(** How a write of the state file ends. [open(..., 'w')] truncates the
    file before anything is written, so a failure after a successful open
    leaves a file that no longer parses. *)
Inductive write_outcome : Type :=
| WriteOk
| OpenFails
| DumpFails.

(** A transaction as [build_transaction] returns it and as
    [sign_transaction] returns it. *)
Record UnsignedTx : Type := {
  tx_user : pyval;
  tx_amount : pyval;
  tx_sourceTxHash : pyval;
  tx_nonce : Z;
  tx_gas : Z;
  tx_gasPrice : Z
}.

Record SignedTx : Type := {
  signed_hash : list Byte.byte;
  rawTransaction : list Byte.byte
}.

(** The destination node as one call of the relayer sees it. *)
Record DestNode : Type := {
  get_transaction_count : result Z;
  build_transaction : pyval -> pyval -> pyval -> Z -> Z -> Z -> result UnsignedTx;
  sign_transaction : UnsignedTx -> result SignedTx
}.

(** ** Traces *)

Inductive level : Type := INFO | WARNING | ERROR | CRITICAL.

(** Every request that leaves the process, and every log record. *)
Inductive action : Type :=
| ABlockNumber
| ACreateFilter (fromBlock toBlock : Z)
| AGetAllEntries
| AReadState
| AWriteState (last_scanned_block : Z)
| AGetTransactionCount
| ABuildTransaction (user amount sourceTxHash : pyval) (nonce : Z)
| ASignTransaction (tx : UnsignedTx)
| ASendRawTransaction (tx : SignedTx)
| ASleep (seconds : Z)
| ALog (lvl : level) (msg : string).

(** ** The process state and the monad of the script *)

(** What a running listener holds and what it leaves on disk:
    [connector.web3] (set or [None]), [scanner.last_scanned_block], and
    the state file. *)
Record Process : Type := {
  web3 : bool;
  last_scanned_block : Z;
  state_file : file_content
}.

Definition set_last_scanned_block (v : Z) (p : Process) : Process :=
  {| web3 := web3 p; last_scanned_block := v; state_file := state_file p |}.

Definition set_state_file (f : file_content) (p : Process) : Process :=
  {| web3 := web3 p; last_scanned_block := last_scanned_block p; state_file := f |}.

(** A statement of the script: from a process state to the trace it
    leaves, the new state, and a value or an exception. An exception
    keeps the trace and the mutations made before it, as in Python. *)
Definition M (A : Type) : Type := Process -> list action * Process * result A.

Definition ret {A} (a : A) : M A := fun p => ([], p, Ok a).

Definition raise {A} (e : exn) : M A := fun p => ([], p, Raise e).

Definition bind {A B} (c : M A) (k : A -> M B) : M B :=
  fun p =>
    match c p with
    | (t1, p1, Ok a) =>
        match k a p1 with
        | (t2, p2, r) => (t1 ++ t2, p2, r)
        end
    | (t1, p1, Raise e) => (t1, p1, Raise e)
    end.

(** [try: c  except <classes>: h]. *)
Definition try_except {A} (c : M A) (classes : exn -> bool) (h : exn -> M A) : M A :=
  fun p =>
    match c p with
    | (t1, p1, Raise e) =>
        if classes e then
          match h e p1 with
          | (t2, p2, r) => (t1 ++ t2, p2, r)
          end
        else (t1, p1, Raise e)
    | ok => ok
    end.

Definition emit (a : action) : M unit := fun p => ([a], p, Ok tt).

Definition log (l : level) (msg : string) : M unit := emit (ALog l msg).

(** A request to the outside: it is traced, then answers or raises. *)
Definition call {A} (a : action) (answer : result A) : M A :=
  fun p => ([a], p, answer).

Definition get : M Process := fun p => ([], p, Ok p).

Definition modify (f : Process -> Process) : M unit := fun p => ([], f p, Ok tt).

Declare Scope py_scope.
Delimit Scope py_scope with py.
Notation "x <- c ;; k" := (bind c (fun x => k))
  (at level 61, c at next level, right associativity) : py_scope.
Notation "c ;; k" := (bind c (fun _ => k))
  (at level 61, right associativity) : py_scope.
Open Scope py_scope.

Definition trace_of {A} (o : list action * Process * result A) : list action :=
  fst (fst o).
Definition state_of {A} (o : list action * Process * result A) : Process :=
  snd (fst o).
Definition value_of {A} (o : list action * Process * result A) : result A :=
  snd o.

(** The truth value of a list, as in [if events:]. *)
Definition truthy {A} (l : list A) : bool :=
  match l with [] => false | _ => true end.

(** ** EventScanner *)

(** [_load_state].  The [return] inside the [try] is modelled by the
    optional value of the guarded block: [Some] when the block returned,
    [None] when control falls through to the fallback below it. *)
Definition _load_state (node : SourceNode) : M Z :=
  p <- get ;;
  found <- try_except
      (match state_file p with
       | FMissing => ret None
       | FUnreadable => call AReadState (Raise IOError)
       | FCorrupt => call AReadState (Raise JSONDecodeError)
       | FNotAnObject => emit AReadState ;; raise AttributeError
       | FObject member =>
           emit AReadState ;;
           let last_block := match member with Some v => v | None => 0 end in
           log INFO "Loaded last scanned block from state" ;;
           ret (Some last_block)
       end)
      is_IOError_or_JSONDecodeError
      (fun _ => log WARNING "Could not load state file" ;; ret None) ;;
  match found with
  | Some last_block => ret last_block
  | None =>
      if web3 p then
        current_block <- call ABlockNumber (block_number node) ;;
        log INFO "No valid state file found. Starting scan from current block" ;;
        ret current_block
      else ret 0
  end.

(** [EventScanner.__init__], the part that touches the state:
    [self.last_scanned_block = self._load_state()]. *)
Definition EventScanner_init (node : SourceNode) : M unit :=
  v <- _load_state node ;;
  modify (set_last_scanned_block v).

(** [_save_state]. *)
Definition _save_state (w : write_outcome) : M unit :=
  try_except
    (p <- get ;;
     let v := last_scanned_block p in
     match w with
     | OpenFails => call (AWriteState v) (Raise IOError)
     | DumpFails =>
         emit (AWriteState v) ;; modify (set_state_file FCorrupt) ;; raise IOError
     | WriteOk =>
         emit (AWriteState v) ;; modify (set_state_file (FObject (Some v)))
     end)
    is_IOError
    (fun _ => log ERROR "Fatal: Could not save state").

(** [scan_for_events]. *)
Definition scan_for_events (node : SourceNode) (w : write_outcome)
    (confirmation_blocks : Z) : M (list LogReceipt) :=
  p <- get ;;
  if negb (web3 p) then
    log ERROR "Cannot scan events, blockchain not connected." ;;
    ret []
  else
    try_except
      (latest_block <- call ABlockNumber (block_number node) ;;
       let to_block := latest_block - confirmation_blocks in
       let from_block := last_scanned_block p + 1 in
       if from_block >? to_block then
         log INFO "Waiting for new blocks." ;;
         ret []
       else
         log INFO "Scanning for events" ;;
         event_filter <- call (ACreateFilter from_block to_block)
                              (create_filter node from_block to_block) ;;
         events <- call AGetAllEntries (get_all_entries event_filter) ;;
         (if truthy events then log INFO "Found new event(s)." else ret tt) ;;
         modify (set_last_scanned_block to_block) ;;
         _save_state w ;;
         ret events)
      is_Exception
      (fun _ => log ERROR "An error occurred during event scanning" ;; ret []).

(** The block an event log sits in, [event['blockNumber']]. *)
Definition blockNumber (event : LogReceipt) : option Z :=
  match dict_get "blockNumber" event with
  | Some (PInt b) => Some b
  | _ => None
  end.

Definition in_blocks (fromBlock toBlock : Z) (event : LogReceipt) : bool :=
  match blockNumber event with
  | Some b => (fromBlock <=? b) && (b <=? toBlock)
  | None => false
  end.

(** A node that answers a filter with logs of the requested range only,
    which is what the JSON-RPC log filter promises. *)
Definition answers_in_range (node : SourceNode) : Prop :=
  forall fromBlock toBlock flt events,
    create_filter node fromBlock toBlock = Ok flt ->
    get_all_entries flt = Ok events ->
    Forall (fun e => in_blocks fromBlock toBlock e = true) events.

(** The node of a chain of the given height holding the given logs. *)
Definition chain_node (height : Z) (logs : list LogReceipt) : SourceNode :=
  {| block_number := Ok height;
     create_filter := fun fromBlock toBlock =>
       Ok {| get_all_entries := Ok (filter (in_blocks fromBlock toBlock) logs) |} |}.

(** ** TransactionRelayer *)

(** [d[key]] on a dictionary: the value, or [KeyError]. *)
Definition subscript (d : pydict) (key : string) : M pyval :=
  match dict_get key d with
  | Some v => ret v
  | None => raise (KeyError key)
  end.

(** [v[key]] on any value: only a dictionary can be indexed by a string. *)
Definition subscript_val (v : pyval) (key : string) : M pyval :=
  match v with
  | PDict d => subscript d key
  | _ => raise TypeError
  end.

(** [to_wei('50', 'gwei')]. *)
Definition gas_price : Z := 50 * 10 ^ 9.

(** [simulate_claim_withdrawal].  The broadcast is commented out in the
    source, so no [ASendRawTransaction] is ever emitted; the method
    returns [None] on every path. *)
Definition simulate_claim_withdrawal (dest : DestNode) (event_data : pydict) : M unit :=
  try_except
    (subscript event_data "user" ;;
     subscript event_data "amount" ;;
     log INFO "Preparing to relay claim" ;;
     nonce <- call AGetTransactionCount (get_transaction_count dest) ;;
     user <- subscript event_data "user" ;;
     amount <- subscript event_data "amount" ;;
     sourceTxHash <- subscript event_data "sourceTxHash" ;;
     claim_tx <- call (ABuildTransaction user amount sourceTxHash nonce)
                      (build_transaction dest user amount sourceTxHash nonce 200000 gas_price) ;;
     signed_tx <- call (ASignTransaction claim_tx) (sign_transaction dest claim_tx) ;;
     log INFO "Successfully signed transaction to claim withdrawal." ;;
     log INFO "  - TX Hash (simulated)" ;;
     log INFO "  - Raw TX (simulated)")
    is_Exception
    (fun _ => log ERROR "Failed to simulate and sign withdrawal claim").

(** ** BridgeListener *)

(** [tx_hash.hex()]: only a byte string has the method. *)
Definition hex (v : pyval) : M unit :=
  match v with
  | PBytes _ => ret tt
  | _ => raise AttributeError
  end.

(** [amount / 1e18]: only a number divides.  An integer too large for a
    float raises [OverflowError], which is not modelled: a statement about
    a relayed amount bounds it by the range of [uint256]. *)
Definition div_1e18 (v : pyval) : M unit :=
  match v with
  | PInt _ => ret tt
  | _ => raise TypeError
  end.

(** [process_event], with its two [except] clauses. *)
Definition process_event (dest : DestNode) (event : LogReceipt) : M unit :=
  try_except
    (args <- subscript event "args" ;;
     user <- subscript_val args "user" ;;
     args' <- subscript event "args" ;;
     amount <- subscript_val args' "amount" ;;
     tx_hash <- subscript event "transactionHash" ;;
     hex tx_hash ;;
     div_1e18 amount ;;
     log INFO "Processing event" ;;
     let event_data :=
       [("user", user); ("amount", amount); ("sourceTxHash", tx_hash)] in
     simulate_claim_withdrawal dest event_data)
    is_Exception
    (fun e =>
       if is_KeyError e
       then log ERROR "Event log is missing expected argument"
       else log ERROR "An unexpected error occurred during event processing").

Record Config : Type := {
  CONFIRMATION_BLOCKS : Z;
  BLOCK_PROCESSING_INTERVAL_SECONDS : Z
}.

(** What the outside answers during one cycle of the loop: the source
    node, the fate of the state-file write, and the destination node as
    the relay of the i-th event of the cycle meets it. *)
Record CycleEnv : Type := {
  source : SourceNode;
  write : write_outcome;
  destination : nat -> DestNode
}.

(** [for event in events: self.process_event(event)]. *)
Fixpoint for_each_event (dest : nat -> DestNode) (i : nat) (events : list LogReceipt) : M unit :=
  match events with
  | [] => ret tt
  | event :: rest => process_event (dest i) event ;; for_each_event dest (S i) rest
  end.

(** [time.sleep]: a negative length raises [ValueError].  A length too
    large for the timer of the platform raises [OverflowError], which is
    not modelled: a statement about the length of a sleep bounds the
    interval. *)
Definition sleep (seconds : Z) : M unit :=
  if seconds <? 0 then raise ValueError else emit (ASleep seconds).

(** One turn of the [while True] of [run]. *)
Definition run_cycle (config : Config) (env : CycleEnv) : M unit :=
  try_except
    (events <- scan_for_events (source env) (write env) (CONFIRMATION_BLOCKS config) ;;
     (if truthy events
      then for_each_event (destination env) 0 events
      else log INFO "No new events found. Waiting for next cycle.") ;;
     let interval := BLOCK_PROCESSING_INTERVAL_SECONDS config in
     log INFO "Sleeping" ;;
     sleep interval)
    is_Exception
    (fun _ => log CRITICAL "A critical error occurred in the main loop" ;; sleep 60).

(** A finite prefix of [run]: as many turns as there are environments. *)
Fixpoint run_loop (config : Config) (cycles : list CycleEnv) : M unit :=
  match cycles with
  | [] => ret tt
  | env :: rest => run_cycle config env ;; run_loop config rest
  end.

Definition run (config : Config) (cycles : list CycleEnv) : M unit :=
  log INFO "Bridge Listener starting up..." ;;
  run_loop config cycles.

(** ** Start-up: ConfigLoader, BlockchainConnector and the constructors *)

(** The exceptions of start-up.  [ConnectionError] is the builtin one,
    which [connect] raises itself; [RequestException] is the one of
    [requests], which is not a [ConnectionError]; the two [ValueError]s of
    [load_config] carry what they are about. *)
Inductive start_exn : Type :=
| MissingVariable (key : string)
| NotAnInteger (text : string)
| ConnectionError
| RequestException
| RuntimeError
| OtherError (e : exn).

Inductive started (A : Type) : Type :=
| Started (a : A)
| Failed (e : start_exn).
Arguments Started {A} a.
Arguments Failed {A} e.

Definition required_keys : list string :=
  ["SOURCE_CHAIN_RPC_URL";
   "DESTINATION_CHAIN_RPC_URL";
   "SOURCE_BRIDGE_CONTRACT_ADDRESS";
   "DESTINATION_BRIDGE_CONTRACT_ADDRESS";
   "RELAYER_PRIVATE_KEY";
   "BLOCK_PROCESSING_INTERVAL_SECONDS";
   "CONFIRMATION_BLOCKS"].

(** [os.environ] and [os.getenv]. *)
Definition environ : Type := list (string * string).

Fixpoint getenv (env : environ) (key : string) : option string :=
  match env with
  | [] => None
  | (k, v) :: rest => if String.eqb k key then Some v else getenv rest key
  end.

(** [d[key] = v]: an existing key keeps its place, a new key goes last. *)
Fixpoint dict_set (key : string) (v : pyval) (d : pydict) : pydict :=
  match d with
  | [] => [(key, v)]
  | (k, x) :: rest =>
      if String.eqb k key then (k, v) :: rest else (k, x) :: dict_set key v rest
  end.

(** The [for key in required_keys] of [load_config]: a variable that is
    unset or empty is logged and raises. *)
Fixpoint read_keys (env : environ) (keys : list string) (config : pydict)
    : list action * started pydict :=
  match keys with
  | [] => ([], Started config)
  | key :: rest =>
      match getenv env key with
      | Some value =>
          if String.eqb value ""
          then ([ALog ERROR "Missing required environment variable"],
                Failed (MissingVariable key))
          else read_keys env rest (dict_set key (PStr value) config)
      | None =>
          ([ALog ERROR "Missing required environment variable"],
           Failed (MissingVariable key))
      end
  end.

(** [config[key] = int(config[key])].  The builtin [int] on strings is
    taken as given: [py_int s] is its value, or [None] where it raises
    [ValueError]. *)
Definition convert (py_int : string -> option Z) (key : string) (config : pydict)
    : started pydict :=
  match dict_get key config with
  | Some (PStr s) =>
      match py_int s with
      | Some z => Started (dict_set key (PInt z) config)
      | None => Failed (NotAnInteger s)
      end
  | Some (PInt z) => Started (dict_set key (PInt z) config)
  | Some _ => Failed (OtherError TypeError)
  | None => Failed (OtherError (KeyError key))
  end.

(** [ConfigLoader.load_config]. *)
Definition load_config (py_int : string -> option Z) (env : environ)
    : list action * started pydict :=
  match read_keys env required_keys [] with
  | (t, Failed e) => (t, Failed e)
  | (t, Started config) =>
      match convert py_int "BLOCK_PROCESSING_INTERVAL_SECONDS" config with
      | Failed e => (t, Failed e)
      | Started config1 =>
          match convert py_int "CONFIRMATION_BLOCKS" config1 with
          | Failed e => (t, Failed e)
          | Started config2 =>
              (t ++ [ALog INFO "Configuration loaded and validated successfully."],
               Started config2)
          end
      end
  end.

(** The two entries of the configuration that [run] reads. *)
Definition config_of (config : pydict) : option Config :=
  match dict_get "CONFIRMATION_BLOCKS" config,
        dict_get "BLOCK_PROCESSING_INTERVAL_SECONDS" config with
  | Some (PInt c), Some (PInt i) =>
      Some {| CONFIRMATION_BLOCKS := c; BLOCK_PROCESSING_INTERVAL_SECONDS := i |}
  | _, _ => None
  end.

(** What a node answers while a connector is built. *)
Record Endpoint : Type := {
  is_connected : started bool;
  chain_id : started Z;
  current_block : started Z
}.

(** [except (RequestException, ConnectionError)]. *)
Definition is_connect_failure (e : start_exn) : bool :=
  match e with
  | ConnectionError | RequestException => true
  | _ => false
  end.

(** [BlockchainConnector.connect]: the trace, whether [self.web3] is set
    when the method ends, and the outcome.  The guarded block sets
    [self.web3] first; the handler resets it and raises again. *)
Definition connect (chain : Endpoint) : list action * bool * started unit :=
  let body : list action * started unit :=
    match is_connected chain with
    | Failed e => ([], Failed e)
    | Started false => ([], Failed ConnectionError)
    | Started true =>
        match chain_id chain with
        | Failed e => ([ALog INFO "Successfully connected"], Failed e)
        | Started _ =>
            match current_block chain with
            | Failed e => ([ALog INFO "Successfully connected"], Failed e)
            | Started _ =>
                ([ALog INFO "Successfully connected"; ALog INFO "Chain ID, Current Block"],
                 Started tt)
            end
        end
    end in
  match body with
  | (t, Started u) => (t, true, Started u)
  | (t, Failed e) =>
      if is_connect_failure e
      then (t ++ [ALog ERROR "Could not connect"], false, Failed e)
      else (t, true, Failed e)
  end.

(** [get_contract]: [None] without [web3]; otherwise the address is
    checksummed, which raises [ValueError] on a malformed address, and a
    contract object is returned. *)
Definition get_contract (web3_set : bool) (address_ok : bool)
    : list action * started (option unit) :=
  if web3_set then
    if address_ok then ([], Started (Some tt))
    else ([], Failed (OtherError ValueError))
  else ([ALog WARNING "Cannot get contract, not connected to the blockchain."],
        Started None).

(** What the outside answers while the listener is built. *)
Record StartWorld : Type := {
  source_endpoint : Endpoint;
  destination_endpoint : Endpoint;
  source_address_ok : bool;
  destination_address_ok : bool;
  private_key_ok : bool;
  disk : file_content;
  source_at_start : SourceNode
}.

(** [TransactionRelayer.__init__]: refuses a connector without [web3];
    [from_key] raises [ValueError] on a malformed key. *)
Definition TransactionRelayer_init (web3_set : bool) (key_ok : bool)
    : list action * started unit :=
  if web3_set then
    if key_ok then ([ALog INFO "Relayer initialized with address"], Started tt)
    else ([], Failed (OtherError ValueError))
  else ([], Failed (OtherError ValueError)).

(** [BridgeListener.__init__]: the two connectors, the two contracts,
    the check on them, the scanner, the relayer.  It yields the process
    the loop starts from. *)
Definition BridgeListener_init (w : StartWorld) : list action * started Process :=
  match connect (source_endpoint w) with
  | (t1, _, Failed e) => (t1, Failed e)
  | (t1, source_web3, Started _) =>
      match connect (destination_endpoint w) with
      | (t2, _, Failed e) => (t1 ++ t2, Failed e)
      | (t2, destination_web3, Started _) =>
          match get_contract source_web3 (source_address_ok w) with
          | (t3, Failed e) => (t1 ++ t2 ++ t3, Failed e)
          | (t3, Started source_contract) =>
              match get_contract destination_web3 (destination_address_ok w) with
              | (t4, Failed e) => (t1 ++ t2 ++ t3 ++ t4, Failed e)
              | (t4, Started destination_contract) =>
                  match source_contract, destination_contract with
                  | Some _, Some _ =>
                      match EventScanner_init (source_at_start w)
                              {| web3 := source_web3;
                                 last_scanned_block := 0;
                                 state_file := disk w |} with
                      | (t5, _, Raise e) =>
                          (t1 ++ t2 ++ t3 ++ t4 ++ t5, Failed (OtherError e))
                      | (t5, p, Ok _) =>
                          match TransactionRelayer_init destination_web3
                                  (private_key_ok w) with
                          | (t6, Failed e) =>
                              (t1 ++ t2 ++ t3 ++ t4 ++ t5 ++ t6, Failed e)
                          | (t6, Started _) =>
                              (t1 ++ t2 ++ t3 ++ t4 ++ t5 ++ t6, Started p)
                          end
                      end
                  | _, _ => (t1 ++ t2 ++ t3 ++ t4, Failed RuntimeError)
                  end
              end
          end
      end
  end.

(** [except (ValueError, RuntimeError, ConnectionError)] of the main
    block; [JSONDecodeError] is a subclass of [ValueError]. *)
Definition is_reported_at_start (e : start_exn) : bool :=
  match e with
  | MissingVariable _ | NotAnInteger _ | ConnectionError | RuntimeError
  | OtherError ValueError | OtherError JSONDecodeError => true
  | _ => false
  end.

(** The main block up to the call of [run]: the configuration, then the
    listener.  An exception of the three classes is logged; any other
    leaves the program. *)
Definition main_start (py_int : string -> option Z) (env : environ) (w : StartWorld)
    : list action * started (pydict * Process) :=
  let attempt : list action * started (pydict * Process) :=
    match load_config py_int env with
    | (t0, Failed e) => (ALog INFO "Loading configuration" :: t0, Failed e)
    | (t0, Started config) =>
        match BridgeListener_init w with
        | (t1, Failed e) => (ALog INFO "Loading configuration" :: t0 ++ t1, Failed e)
        | (t1, Started p) =>
            (ALog INFO "Loading configuration" :: t0 ++ t1, Started (config, p))
        end
    end in
  match attempt with
  | (t, Failed e) =>
      if is_reported_at_start e
      then (t ++ [ALog CRITICAL "Application failed to start"], Failed e)
      else (t, Failed e)
  | ok => ok
  end.

(** ** A lifetime: cycles and restarts *)

(** A start of the process over the state file left on disk.  The
    listener is built only after [connect] succeeded, so [web3] is set;
    the memory of the previous run is gone. *)
Definition boot (disk : file_content) (node : SourceNode)
    : list action * Process * result unit :=
  EventScanner_init node
    {| web3 := true; last_scanned_block := 0; state_file := disk |}.




(** ** Concrete inputs *)

Definition log_at (block : Z) (user : string) (amount : Z) (tx : list Byte.byte) : LogReceipt :=
  [("args", PDict [("user", PStr user); ("amount", PInt amount)]);
   ("transactionHash", PBytes tx);
   ("blockNumber", PInt block)].

(** Six logs, in blocks 5, 10, 12, 15, 16 and 20. *)
Definition sample_logs : list LogReceipt :=
  [log_at 5 "0xA" 1 [Byte.x01];
   log_at 10 "0xB" 2 [Byte.x02];
   log_at 12 "0xC" 3 [Byte.x03];
   log_at 15 "0xD" 4 [Byte.x04];
   log_at 16 "0xE" 5 [Byte.x05];
   log_at 20 "0xF" 6 [Byte.x06]].

(** A running process whose checkpoint, in memory and on disk, is 9. *)
Definition at_nine : Process :=
  {| web3 := true; last_scanned_block := 9; state_file := FObject (Some 9) |}.

(** A destination node that answers every request. *)
Definition good_dest : DestNode :=
  {| get_transaction_count := Ok 7;
     build_transaction := fun user amount hash nonce gas price =>
       Ok {| tx_user := user; tx_amount := amount; tx_sourceTxHash := hash;
             tx_nonce := nonce; tx_gas := gas; tx_gasPrice := price |};
     sign_transaction := fun _ =>
       Ok {| signed_hash := [Byte.xaa]; rawTransaction := [Byte.xbb] |} |}.

(** A destination node whose signer refuses. *)
Definition bad_signer : DestNode :=
  {| get_transaction_count := Ok 7;
     build_transaction := build_transaction good_dest;
     sign_transaction := fun _ => Raise ValueError |}.

Definition sample_config : Config :=
  {| CONFIRMATION_BLOCKS := 5; BLOCK_PROCESSING_INTERVAL_SECONDS := 15 |}.

(** The scan of the specification's example: the chain at height 20,
    5 confirmations, the checkpoint at 9, and a state file that takes the
    write. *)
Definition scan_from_nine : list action * Process * result (list LogReceipt) :=
  scan_for_events (chain_node 20 sample_logs) WriteOk 5 at_nine.

(** The same scan when the state file cannot be opened for writing. *)
Definition scan_from_nine_unsaved : list action * Process * result (list LogReceipt) :=
  scan_for_events (chain_node 20 sample_logs) OpenFails 5 at_nine.



(** The data [process_event] hands to the relayer for the log of block 10. *)
Definition sample_event_data : pydict :=
  [("user", PStr "0xB"); ("amount", PInt 2); ("sourceTxHash", PBytes [Byte.x02])].

(** A log without the ['amount'] argument. *)
Definition log_without_amount : LogReceipt :=
  [("args", PDict [("user", PStr "0xA")]);
   ("transactionHash", PBytes [Byte.x01]);
   ("blockNumber", PInt 10)].

(** The scan when the chain is only at height 13: block 10 is not yet
    five blocks deep. *)
Definition scan_too_early : list action * Process * result (list LogReceipt) :=
  scan_for_events (chain_node 13 sample_logs) WriteOk 5 at_nine.

(** A node at height 20 whose filter is created but whose entries cannot
    be retrieved. *)
Definition timing_out_node : SourceNode :=
  {| block_number := Ok 20;
     create_filter := fun _ _ => Ok {| get_all_entries := Raise RPCError |} |}.

Definition scan_timing_out : list action * Process * result (list LogReceipt) :=
  scan_for_events timing_out_node WriteOk 5 at_nine.

(** Two calls of the relayer for the same event, one after the other. *)
Definition first_relay : list action * Process * result unit :=
  simulate_claim_withdrawal good_dest sample_event_data at_nine.

Definition second_relay : list action * Process * result unit :=
  simulate_claim_withdrawal good_dest sample_event_data (state_of first_relay).

(** A process about to load a state file that is not JSON, and one about
    to start without a state file. *)
Definition corrupt_start : Process :=
  {| web3 := true; last_scanned_block := 0; state_file := FCorrupt |}.

Definition fresh_start : Process :=
  {| web3 := true; last_scanned_block := 0; state_file := FMissing |}.

(** A window of three logs: the first lacks an argument, the second meets
    a signer that refuses, the third goes through. *)
Definition mixed_window : list LogReceipt :=
  [log_without_amount; log_at 12 "0xC" 3 [Byte.x03]; log_at 15 "0xD" 4 [Byte.x04]].

Definition mixed_dest (i : nat) : DestNode :=
  match i with
  | 1%nat => bad_signer
  | _ => good_dest
  end.

(** ** Statement vocabulary *)

(** The state file after [_save_state] tried to write [v] over [old]. *)
Definition file_after_save (w : write_outcome) (v : Z) (old : file_content) : file_content :=
  match w with
  | WriteOk => FObject (Some v)
  | OpenFails => old
  | DumpFails => FCorrupt
  end.

(** The process after a scan that fetched its window and set the
    checkpoint to [to_block]. *)
Definition committed (w : write_outcome) (to_block : Z) (p : Process) : Process :=
  {| web3 := web3 p;
     last_scanned_block := to_block;
     state_file := file_after_save w to_block (state_file p) |}.

(** The log fetch of a window fails: either call of the two raises. *)
Definition fetch_fails (node : SourceNode) (fromBlock toBlock : Z) : Prop :=
  (exists e, create_filter node fromBlock toBlock = Raise e) \/
  (exists flt e, create_filter node fromBlock toBlock = Ok flt /\
                 get_all_entries flt = Raise e).

(** The requests that make up a relay on the destination chain. *)
Definition is_relay_request (a : action) : bool :=
  match a with
  | ABuildTransaction _ _ _ _ | ASignTransaction _ | ASendRawTransaction _ => true
  | _ => false
  end.

Definition relay_requests (t : list action) : list action :=
  filter is_relay_request t.

(** The requests that touch the log filter or the state file. *)
Definition is_fetch_or_write (a : action) : bool :=
  match a with
  | ACreateFilter _ _ | AGetAllEntries | AWriteState _ => true
  | _ => false
  end.

(** No entry of a trace is a broadcast. *)
Definition never_sends (t : list action) : Prop :=
  forall tx, ~ In (ASendRawTransaction tx) t.

(** A statement that leaves the process state alone and broadcasts
    nothing, whatever it returns or raises. *)
Definition quiet {A} (c : M A) : Prop :=
  forall p, exists t r, c p = (t, p, r) /\ never_sends t.

(** A quiet statement that moreover always completes. *)
Definition quiet_ok (c : M unit) : Prop :=
  forall p, exists t, c p = (t, p, Ok tt) /\ never_sends t.

(** A call of the relayer went through: it logged the line that follows
    the signature.  With the broadcast commented out this is the furthest
    a relay gets, the simulated submission of the spec. *)
Definition relay_went_through (dest : DestNode) (event_data : pydict) (p : Process) : Prop :=
  In (ALog INFO "Successfully signed transaction to claim withdrawal.")
     (trace_of (simulate_claim_withdrawal dest event_data p)).

(** The traces of the events of a window, each processed on its own from
    [p], one after the other. *)
Fixpoint event_traces (dest : nat -> DestNode) (i : nat) (events : list LogReceipt)
    (p : Process) : list action :=
  match events with
  | [] => []
  | event :: rest =>
      trace_of (process_event (dest i) event p) ++ event_traces dest (S i) rest p
  end.



(** A scan from [p] fetches its window: the connector holds [web3], the
    node tells its height, the window is not empty, and both calls of the
    log fetch answer. *)
Definition fetches_window (node : SourceNode) (confirmation_blocks : Z) (p : Process)
    (latest_block : Z) (flt : EventFilter) (events : list LogReceipt) : Prop :=
  web3 p = true /\
  block_number node = Ok latest_block /\
  last_scanned_block p + 1 <= latest_block - confirmation_blocks /\
  create_filter node (last_scanned_block p + 1) (latest_block - confirmation_blocks)
    = Ok flt /\
  get_all_entries flt = Ok events.

(** ** The sentences of the specification that the script does not follow,
    as the specification words them *)

(** "The scanner itself never commits": a scan that returns leaves the
    checkpoint as it found it, in memory and on disk. *)
Definition scanner_never_commits : Prop :=
  forall node w confirmation_blocks p events,
    value_of (scan_for_events node w confirmation_blocks p) = Ok events ->
    last_scanned_block (state_of (scan_for_events node w confirmation_blocks p))
      = last_scanned_block p /\
    state_file (state_of (scan_for_events node w confirmation_blocks p))
      = state_file p.

(** "Calling relay twice with the same event, where the first call went
    through, performs no additional build, sign or submit." *)
Definition relay_is_idempotent : Prop :=
  forall dest event_data p,
    relay_went_through dest event_data p ->
    let first := simulate_claim_withdrawal dest event_data p in
    relay_requests
      (trace_of (simulate_claim_withdrawal dest event_data (state_of first))) = [].


(** "If the stored value cannot be parsed, fall back to the current
    height minus the confirmations." *)
Definition corrupt_file_falls_back_behind_confirmations : Prop :=
  forall node height confirmations p,
    state_file p = FCorrupt ->
    web3 p = true ->
    block_number node = Ok height ->
    value_of (_load_state node p) = Ok (height - confirmations).

(** "get() returns 0 if no checkpoint exists yet."  The script has no
    configured genesis block, so 0 is the only reading. *)
Definition missing_file_gives_zero : Prop :=
  forall node p,
    state_file p = FMissing ->
    value_of (_load_state node p) = Ok 0.

(** "A failed commit is surfaced as a cycle failure and the checkpoint is
    not advanced": a scan whose write of the state file fails raises, and
    leaves the checkpoint where it was. *)
Definition failed_save_is_surfaced : Prop :=
  forall node w confirmation_blocks p latest_block flt events,
    web3 p = true ->
    block_number node = Ok latest_block ->
    last_scanned_block p + 1 <= latest_block - confirmation_blocks ->
    create_filter node (last_scanned_block p + 1) (latest_block - confirmation_blocks)
      = Ok flt ->
    get_all_entries flt = Ok events ->
    w <> WriteOk ->
    (exists e, value_of (scan_for_events node w confirmation_blocks p) = Raise e) /\
    last_scanned_block (state_of (scan_for_events node w confirmation_blocks p))
      = last_scanned_block p.

(** ** Vocabulary for the whole run *)

(** The actions a handled event may leave: requests to the destination
    node and log records. *)
Definition is_relay_side (a : action) : bool :=
  match a with
  | AGetTransactionCount | ABuildTransaction _ _ _ _ | ASignTransaction _
  | ALog INFO _ | ALog ERROR _ => true
  | _ => false
  end.

(** The actions a scan may leave: requests to the source node, the write
    of the state file, and log records. *)
Definition is_scan_side (a : action) : bool :=
  match a with
  | ABlockNumber | ACreateFilter _ _ | AGetAllEntries | AWriteState _
  | ALog INFO _ | ALog ERROR _ => true
  | _ => false
  end.

(** A statement that leaves the process state alone and whose trace
    stays within a class of actions. *)
Definition emits_only {A} (allowed : action -> bool) (c : M A) : Prop :=
  forall p, exists t r, c p = (t, p, r) /\ forallb allowed t = true.

(** The windows a trace asks the source node for, in order. *)
Fixpoint filter_requests (t : list action) : list (Z * Z) :=
  match t with
  | [] => []
  | ACreateFilter f t' :: rest => (f, t') :: filter_requests rest
  | _ :: rest => filter_requests rest
  end.

(** Whether a trace writes the state file before it asks for another
    filter. *)
Fixpoint writes_before_next_filter (t : list action) : bool :=
  match t with
  | [] => false
  | AWriteState _ :: _ => true
  | ACreateFilter _ _ :: _ => false
  | _ :: rest => writes_before_next_filter rest
  end.

(** The windows a trace asks the source node for, in order, each with
    whether it was fetched.  A scan writes the state file after its
    filter request exactly when the fetch succeeded, so the write that
    follows a request is the mark of a fetched window. *)
Fixpoint fetch_attempts (t : list action) : list (Z * Z * bool) :=
  match t with
  | [] => []
  | ACreateFilter f t' :: rest =>
      (f, t', writes_before_next_filter rest) :: fetch_attempts rest
  | _ :: rest => fetch_attempts rest
  end.

(** A sequence of attempts in which each window is well-formed and the
    next one starts where this one started when this one was not fetched
    (a retry), and right after this one ended when it was fetched. *)
Fixpoint retried_or_followed (attempts : list (Z * Z * bool)) : Prop :=
  match attempts with
  | [] => True
  | (f1, t1, fetched) :: rest =>
      f1 <= t1 /\
      match rest with
      | [] => True
      | (f2, _, _) :: _ => f2 = (if fetched then t1 + 1 else f1)
      end /\
      retried_or_followed rest
  end.

(** The lengths of the sleeps of a trace, in order. *)
Fixpoint sleeps (t : list action) : list Z :=
  match t with
  | [] => []
  | ASleep s :: rest => s :: sleeps rest
  | _ :: rest => sleeps rest
  end.

Definition is_critical (a : action) : bool :=
  match a with ALog CRITICAL _ => true | _ => false end.

(** The actions a turn of the loop may leave: those of its scan, those
    of its events, its sleep, and the log of its last handler. *)
Definition is_loop_action (a : action) : bool :=
  is_scan_side a || is_relay_side a ||
  match a with
  | ASleep _ | ALog CRITICAL _ => true
  | _ => false
  end.

(** The length of the sleep that ends a turn of the loop. *)
Definition cycle_sleep (config : Config) : Z :=
  if BLOCK_PROCESSING_INTERVAL_SECONDS config <? 0
  then 60
  else BLOCK_PROCESSING_INTERVAL_SECONDS config.

(** The three fields [process_event] takes from a log, when the log has
    them with the types the handler needs: ['args'] a dictionary with
    ['user'] and an integer ['amount'], ['transactionHash'] a byte
    string. *)
Definition event_fields (event : LogReceipt) : option (pyval * pyval * pyval) :=
  match dict_get "args" event with
  | Some (PDict args) =>
      match dict_get "user" args, dict_get "amount" args,
            dict_get "transactionHash" event with
      | Some user, Some (PInt amount), Some (PBytes tx_hash) =>
          Some (user, PInt amount, PBytes tx_hash)
      | _, _, _ => None
      end
  | _ => None
  end.


(** An environment variable that is set and not empty. *)
Definition is_set (env : environ) (key : string) : Prop :=
  exists value, getenv env key = Some value /\ value <> "".



(** ** Concrete inputs of start-up *)

(** The value of [int] on a plain decimal numeral with an optional sign.
    It stands for the builtin in the examples; the builtin accepts more
    (surrounding blanks, underscores), which no example feeds it. *)
Definition digit_of (c : ascii) : option Z :=
  let n := Z.of_nat (nat_of_ascii c) in
  if (48 <=? n) && (n <=? 57) then Some (n - 48) else None.

Fixpoint digits (s : string) (acc : Z) : option Z :=
  match s with
  | EmptyString => Some acc
  | String c rest =>
      match digit_of c with
      | Some d => digits rest (10 * acc + d)
      | None => None
      end
  end.

Definition plain_decimal (s : string) : option Z :=
  match s with
  | EmptyString => None
  | String "-" (String c rest) => option_map Z.opp (digits (String c rest) 0)
  | String "+" (String c rest) => digits (String c rest) 0
  | String "-" EmptyString | String "+" EmptyString => None
  | _ => digits s 0
  end.

Definition sample_environ : environ :=
  [("SOURCE_CHAIN_RPC_URL", "http://source");
   ("DESTINATION_CHAIN_RPC_URL", "http://destination");
   ("SOURCE_BRIDGE_CONTRACT_ADDRESS", "0x01");
   ("DESTINATION_BRIDGE_CONTRACT_ADDRESS", "0x02");
   ("RELAYER_PRIVATE_KEY", "0x03");
   ("BLOCK_PROCESSING_INTERVAL_SECONDS", "15");
   ("CONFIRMATION_BLOCKS", "5")].

(** The same environment with the relayer key left empty. *)
Definition environ_without_key : environ :=
  [("SOURCE_CHAIN_RPC_URL", "http://source");
   ("DESTINATION_CHAIN_RPC_URL", "http://destination");
   ("SOURCE_BRIDGE_CONTRACT_ADDRESS", "0x01");
   ("DESTINATION_BRIDGE_CONTRACT_ADDRESS", "0x02");
   ("RELAYER_PRIVATE_KEY", "");
   ("CONFIRMATION_BLOCKS", "5")].

Definition live_endpoint : Endpoint :=
  {| is_connected := Started true; chain_id := Started 1; current_block := Started 20 |}.

Definition sample_world : StartWorld :=
  {| source_endpoint := live_endpoint;
     destination_endpoint := live_endpoint;
     source_address_ok := true;
     destination_address_ok := true;
     private_key_ok := true;
     disk := FObject (Some 9);
     source_at_start := chain_node 20 sample_logs |}.

(** A process whose connector holds no [web3]. *)
Definition offline_nine : Process :=
  {| web3 := false; last_scanned_block := 9; state_file := FObject (Some 9) |}.

(** A process about to load a state file that holds a JSON list. *)
Definition list_start : Process :=
  {| web3 := true; last_scanned_block := 0; state_file := FNotAnObject |}.

(** The scan of the example when the write fails after the file was
    opened. *)
Definition scan_from_nine_truncated : list action * Process * result (list LogReceipt) :=
  scan_for_events (chain_node 20 sample_logs) DumpFails 5 at_nine.

(** Three turns of the loop: a fetch that times out, the same window
    fetched, and a third turn on a longer chain. *)
Definition three_cycles : list CycleEnv :=
  [{| source := timing_out_node; write := WriteOk; destination := mixed_dest |};
   {| source := chain_node 20 sample_logs; write := WriteOk; destination := mixed_dest |};
   {| source := chain_node 30 sample_logs; write := OpenFails; destination := mixed_dest |}].

(** ** Equations of [scan_for_events], one per path *)

Section ScanPaths.

Variables (node : SourceNode) (w : write_outcome) (confirmation_blocks : Z).
Variable p : Process.

Lemma scan_not_connected :
  web3 p = false ->
  scan_for_events node w confirmation_blocks p
  = ([ALog ERROR "Cannot scan events, blockchain not connected."], p, Ok []).
Proof.
  intros Hw. unfold scan_for_events, bind, get. rewrite Hw. reflexivity.
Qed.

Lemma scan_height_fails e :
  web3 p = true ->
  block_number node = Raise e ->
  scan_for_events node w confirmation_blocks p
  = ([ABlockNumber; ALog ERROR "An error occurred during event scanning"], p, Ok []).
Proof.
  intros Hw Hb. unfold scan_for_events, bind, get, try_except, call.
  rewrite Hw, Hb. reflexivity.
Qed.

Variable latest_block : Z.
Hypothesis Hweb3 : web3 p = true.
Hypothesis Hheight : block_number node = Ok latest_block.

Let to_block := latest_block - confirmation_blocks.
Let from_block := last_scanned_block p + 1.

Lemma scan_waiting :
  from_block > to_block ->
  scan_for_events node w confirmation_blocks p
  = ([ABlockNumber; ALog INFO "Waiting for new blocks."], p, Ok []).
Proof.
  intros Hgt. unfold scan_for_events, bind, get, try_except, call.
  rewrite Hweb3, Hheight. cbn.
  replace (last_scanned_block p + 1 >? latest_block - confirmation_blocks) with true.
  - reflexivity.
  - symmetry. apply Z.gtb_lt. subst from_block to_block. lia.
Qed.

Hypothesis Hwindow : from_block <= to_block.

Lemma window_test : (last_scanned_block p + 1 >? latest_block - confirmation_blocks) = false.
Proof.
  destruct (Z.gtb_spec (last_scanned_block p + 1) (latest_block - confirmation_blocks));
    [ subst from_block to_block; lia | reflexivity ].
Qed.

Lemma scan_filter_fails e :
  create_filter node from_block to_block = Raise e ->
  scan_for_events node w confirmation_blocks p
  = ([ABlockNumber; ALog INFO "Scanning for events";
      ACreateFilter from_block to_block;
      ALog ERROR "An error occurred during event scanning"], p, Ok []).
Proof.
  intros Hf. unfold scan_for_events, bind, get, try_except, call.
  rewrite Hweb3, Hheight. cbn. rewrite window_test. cbn.
  fold from_block to_block. rewrite Hf. reflexivity.
Qed.

Lemma scan_entries_fail flt e :
  create_filter node from_block to_block = Ok flt ->
  get_all_entries flt = Raise e ->
  scan_for_events node w confirmation_blocks p
  = ([ABlockNumber; ALog INFO "Scanning for events";
      ACreateFilter from_block to_block; AGetAllEntries;
      ALog ERROR "An error occurred during event scanning"], p, Ok []).
Proof.
  intros Hf Hg. unfold scan_for_events, bind, get, try_except, call.
  rewrite Hweb3, Hheight. cbn. rewrite window_test. cbn.
  fold from_block to_block. rewrite Hf, Hg. reflexivity.
Qed.

Lemma scan_fetched flt events :
  create_filter node from_block to_block = Ok flt ->
  get_all_entries flt = Ok events ->
  scan_for_events node w confirmation_blocks p
  = ([ABlockNumber; ALog INFO "Scanning for events";
      ACreateFilter from_block to_block; AGetAllEntries]
     ++ (if truthy events then [ALog INFO "Found new event(s)."] else [])
     ++ AWriteState to_block
        :: match w with
           | WriteOk => []
           | _ => [ALog ERROR "Fatal: Could not save state"]
           end,
     committed w to_block p,
     Ok events).
Proof.
  intros Hf Hg. unfold scan_for_events, bind, get, try_except, call.
  rewrite Hweb3, Hheight. cbn. rewrite window_test. cbn.
  fold from_block to_block. rewrite Hf, Hg.
  destruct events, w; reflexivity.
Qed.

End ScanPaths.

(** ** What the relayer and the per-event handler leave behind *)

Lemma never_sends_nil : never_sends [].
Proof. intros tx []. Qed.

Lemma never_sends_app t1 t2 :
  never_sends t1 -> never_sends t2 -> never_sends (t1 ++ t2).
Proof.
  intros H1 H2 tx Hin. apply in_app_or in Hin as [Hin|Hin];
    [ exact (H1 tx Hin) | exact (H2 tx Hin) ].
Qed.

Lemma never_sends_one a :
  (forall tx, a <> ASendRawTransaction tx) -> never_sends [a].
Proof. intros Ha tx [Heq|[]]. exact (Ha tx Heq). Qed.

Lemma quiet_ret {A} (a : A) : quiet (ret a).
Proof. intros p. exists [], (Ok a). split; [ reflexivity | apply never_sends_nil ]. Qed.

Lemma quiet_raise {A} e : quiet (@raise A e).
Proof. intros p. exists [], (Raise e). split; [ reflexivity | apply never_sends_nil ]. Qed.

Lemma quiet_call {A} a (answer : result A) :
  (forall tx, a <> ASendRawTransaction tx) -> quiet (call a answer).
Proof.
  intros Ha p. exists [a], answer. split; [ reflexivity | now apply never_sends_one ].
Qed.

Lemma quiet_log l msg : quiet (log l msg).
Proof.
  intros p. exists [ALog l msg], (Ok tt).
  split; [ reflexivity | apply never_sends_one; discriminate ].
Qed.

Lemma quiet_bind {A B} (c : M A) (k : A -> M B) :
  quiet c -> (forall a, quiet (k a)) -> quiet (bind c k).
Proof.
  intros Hc Hk p. destruct (Hc p) as (t1 & r1 & E1 & N1).
  unfold bind. rewrite E1. destruct r1 as [a|e].
  - destruct (Hk a p) as (t2 & r2 & E2 & N2). rewrite E2.
    exists (t1 ++ t2), r2. split; [ reflexivity | now apply never_sends_app ].
  - exists t1, (Raise e). split; [ reflexivity | assumption ].
Qed.

Lemma quiet_ok_quiet c : quiet_ok c -> quiet c.
Proof. intros H p. destruct (H p) as (t & E & N). now exists t, (Ok tt). Qed.

(** A [try] whose handler takes every exception and completes quietly
    completes quietly itself. *)
Lemma quiet_try_except (c : M unit) (h : exn -> M unit) :
  quiet c -> (forall e, quiet_ok (h e)) -> quiet_ok (try_except c is_Exception h).
Proof.
  intros Hc Hh p. destruct (Hc p) as (t1 & r1 & E1 & N1).
  unfold try_except. rewrite E1. destruct r1 as [[]|e].
  - now exists t1.
  - cbn. destruct (Hh e p) as (t2 & E2 & N2). rewrite E2.
    exists (t1 ++ t2). split; [ reflexivity | now apply never_sends_app ].
Qed.

Lemma quiet_ok_log l msg : quiet_ok (log l msg).
Proof.
  intros p. exists [ALog l msg].
  split; [ reflexivity | apply never_sends_one; discriminate ].
Qed.

Lemma quiet_subscript d key : quiet (subscript d key).
Proof.
  unfold subscript. destruct (dict_get key d); [ apply quiet_ret | apply quiet_raise ].
Qed.

Lemma quiet_subscript_val v key : quiet (subscript_val v key).
Proof.
  destruct v; cbn; try apply quiet_raise. apply quiet_subscript.
Qed.

Lemma quiet_hex v : quiet (hex v).
Proof. destruct v; cbn; first [ apply quiet_ret | apply quiet_raise ]. Qed.

Lemma quiet_div_1e18 v : quiet (div_1e18 v).
Proof. destruct v; cbn; first [ apply quiet_ret | apply quiet_raise ]. Qed.

Create HintDb quiet.
#[local] Hint Resolve quiet_ret quiet_raise quiet_log quiet_subscript
  quiet_subscript_val quiet_hex quiet_div_1e18 quiet_ok_log quiet_ok_quiet : quiet.

Ltac quiet_steps :=
  repeat (apply quiet_bind; [ | intros ? ]);
  auto with quiet;
  try (apply quiet_call; discriminate).

Lemma simulate_claim_withdrawal_quiet dest event_data :
  quiet_ok (simulate_claim_withdrawal dest event_data).
Proof.
  unfold simulate_claim_withdrawal.
  apply quiet_try_except; [ quiet_steps | intros e; apply quiet_ok_log ].
Qed.

Lemma process_event_quiet dest event : quiet_ok (process_event dest event).
Proof.
  unfold process_event. apply quiet_try_except.
  - quiet_steps. apply quiet_ok_quiet, simulate_claim_withdrawal_quiet.
  - intros e. destruct (is_KeyError e); apply quiet_ok_log.
Qed.

Lemma for_each_event_runs_all dest events :
  forall i p,
    for_each_event dest i events p = (event_traces dest i events p, p, Ok tt).
Proof.
  induction events as [|event rest IH]; intros i p.
  - reflexivity.
  - cbn [for_each_event event_traces]. unfold bind.
    destruct (process_event_quiet (dest i) event p) as (t' & E' & _).
    rewrite E', IH. reflexivity.
Qed.

(** ** What a scan and a cycle leave behind *)

(** A scan either returns nothing and changes nothing, or it fetched its
    window and committed the window end. *)
Lemma scan_for_events_cases node w confirmation_blocks p :
  (exists t, scan_for_events node w confirmation_blocks p = (t, p, Ok [])) \/
  (exists latest_block flt events t,
      web3 p = true /\
      block_number node = Ok latest_block /\
      last_scanned_block p + 1 <= latest_block - confirmation_blocks /\
      create_filter node (last_scanned_block p + 1) (latest_block - confirmation_blocks)
        = Ok flt /\
      get_all_entries flt = Ok events /\
      scan_for_events node w confirmation_blocks p
        = (t, committed w (latest_block - confirmation_blocks) p, Ok events)).
Proof.
  destruct (web3 p) eqn:Hw;
    [ | left; eexists; now apply scan_not_connected ].
  destruct (block_number node) as [latest_block|e] eqn:Hb;
    [ | left; eexists; now apply scan_height_fails with (e := e) ].
  destruct (Z_gt_le_dec (last_scanned_block p + 1) (latest_block - confirmation_blocks))
    as [Hgt|Hle];
    [ left; eexists; now apply scan_waiting with (latest_block := latest_block) | ].
  destruct (create_filter node (last_scanned_block p + 1)
              (latest_block - confirmation_blocks)) as [flt|e] eqn:Hf;
    [ | left; eexists; eapply scan_filter_fails; eassumption ].
  destruct (get_all_entries flt) as [events|e] eqn:Hg;
    [ | left; eexists; eapply scan_entries_fail; eassumption ].
  right. exists latest_block, flt, events. eexists.
  repeat split; try assumption.
  eapply scan_fetched; eassumption.
Qed.

Lemma scan_for_events_returns node w confirmation_blocks p :
  exists events, value_of (scan_for_events node w confirmation_blocks p) = Ok events.
Proof.
  destruct (scan_for_events_cases node w confirmation_blocks p)
    as [(t & E)|(l & f & events & t & _ & _ & _ & _ & _ & E)]; rewrite E;
    eexists; reflexivity.
Qed.

(** A scan never lowers the checkpoint. *)
Lemma scan_for_events_never_lowers node w confirmation_blocks p :
  last_scanned_block p
  <= last_scanned_block (state_of (scan_for_events node w confirmation_blocks p)).
Proof.
  destruct (scan_for_events_cases node w confirmation_blocks p)
    as [(t & E)|(l & f & events & t & _ & _ & Hle & _ & _ & E)]; rewrite E; cbn; lia.
Qed.

(** The trace and the result of one turn of the loop, from those of its
    scan. *)
Lemma run_cycle_eq config env p ts p' events :
  scan_for_events (source env) (write env) (CONFIRMATION_BLOCKS config) p
    = (ts, p', Ok events) ->
  run_cycle config env p
  = (ts
     ++ (if truthy events
         then event_traces (destination env) 0 events p'
         else [ALog INFO "No new events found. Waiting for next cycle."])
     ++ ALog INFO "Sleeping"
        :: (if BLOCK_PROCESSING_INTERVAL_SECONDS config <? 0
            then [ALog CRITICAL "A critical error occurred in the main loop"; ASleep 60]
            else [ASleep (BLOCK_PROCESSING_INTERVAL_SECONDS config)]),
     p', Ok tt).
Proof.
  intros E. unfold run_cycle, try_except. unfold bind at 1. rewrite E.
  unfold bind at 1.
  assert (Hloop : (if truthy events
                   then for_each_event (destination env) 0 events
                   else log INFO "No new events found. Waiting for next cycle.") p'
                  = ((if truthy events
                      then event_traces (destination env) 0 events p'
                      else [ALog INFO "No new events found. Waiting for next cycle."]),
                     p', Ok tt)).
  { destruct (truthy events); [ apply for_each_event_runs_all | reflexivity ]. }
  rewrite Hloop. unfold sleep, bind, log, emit, raise.
  destruct (BLOCK_PROCESSING_INTERVAL_SECONDS config <? 0); cbn;
    rewrite <- ?app_assoc; reflexivity.
Qed.

(** One turn of the loop leaves the process as its scan left it, and
    completes. *)
Lemma run_cycle_state config env p :
  state_of (run_cycle config env p)
  = state_of (scan_for_events (source env) (write env) (CONFIRMATION_BLOCKS config) p)
  /\ value_of (run_cycle config env p) = Ok tt.
Proof.
  destruct (scan_for_events (source env) (write env) (CONFIRMATION_BLOCKS config) p)
    as [[ts p'] r] eqn:E.
  destruct (scan_for_events_returns (source env) (write env)
              (CONFIRMATION_BLOCKS config) p) as (events & Hv).
  rewrite E in Hv. cbn in Hv. subst r.
  rewrite (run_cycle_eq _ _ _ _ _ _ E). split; reflexivity.
Qed.

(** Whatever filter a scan asks for, it asks for the blocks after the
    checkpoint up to the height less the confirmations. *)
Lemma scan_requests_its_window node w confirmation_blocks p f t :
  In (ACreateFilter f t) (trace_of (scan_for_events node w confirmation_blocks p)) ->
  f = last_scanned_block p + 1 /\
  exists latest_block,
    block_number node = Ok latest_block /\ t = latest_block - confirmation_blocks.
Proof.
  destruct (web3 p) eqn:Hw;
    [ | rewrite scan_not_connected by assumption; cbn; intuition discriminate ].
  destruct (block_number node) as [latest_block|e] eqn:Hb;
    [ | rewrite scan_height_fails with (e := e) by assumption;
        cbn; intuition discriminate ].
  destruct (Z_gt_le_dec (last_scanned_block p + 1) (latest_block - confirmation_blocks))
    as [Hgt|Hle];
    [ rewrite scan_waiting with (latest_block := latest_block) by assumption;
      cbn; intuition discriminate | ].
  assert (Hhere : forall a : action,
             ACreateFilter (last_scanned_block p + 1)
               (latest_block - confirmation_blocks) = a ->
             a = ACreateFilter f t ->
             f = last_scanned_block p + 1 /\
             exists l, Ok latest_block = Ok l /\ t = l - confirmation_blocks).
  { intros a <- Heq. inversion Heq; subst. split; [ reflexivity | eauto ]. }
  destruct (create_filter node (last_scanned_block p + 1)
              (latest_block - confirmation_blocks)) as [flt|e] eqn:Hf.
  - destruct (get_all_entries flt) as [events|e] eqn:Hg.
    + rewrite scan_fetched with (latest_block := latest_block) (flt := flt)
                                (events := events) by assumption.
      unfold trace_of. cbn [fst app]. intros Hin.
      destruct Hin as [H|[H|[H|[H|Hin]]]]; try discriminate;
        [ now apply (Hhere _ H) | ].
      apply in_app_or in Hin as [Hin|Hin].
      * destruct (truthy events); cbn in Hin; intuition discriminate.
      * destruct w; cbn in Hin; intuition discriminate.
    + rewrite scan_entries_fail with (latest_block := latest_block) (flt := flt) (e := e)
        by assumption.
      cbn. intros [H|[H|[H|[H|[H|[]]]]]]; try discriminate. now apply (Hhere _ H).
  - rewrite scan_filter_fails with (latest_block := latest_block) (e := e) by assumption.
    cbn. intros [H|[H|[H|[H|[]]]]]; try discriminate. now apply (Hhere _ H).
Qed.

Lemma chain_node_answers_in_range height logs :
  answers_in_range (chain_node height logs).
Proof.
  intros f t flt events Hf Hg. cbn in Hf. inversion Hf; subst flt.
  cbn in Hg. inversion Hg; subst events.
  apply Forall_forall. intros e He. now apply filter_In in He.
Qed.

(** ** The claims *)

(** C1, as the script has it: a scan that fetched its window itself sets
    the checkpoint to the window end and writes it to the state file
    before it returns the events; a scan that did not fetch a window
    returns the empty list, leaves the checkpoint in memory and on disk
    as it was and writes nothing; the loop of [run] then leaves the
    process exactly as the scan left it, whatever happens to the events. *)
Theorem scan_commits_window_end node w confirmation_blocks p :
  let o := scan_for_events node w confirmation_blocks p in
  (forall latest_block flt events,
      fetches_window node confirmation_blocks p latest_block flt events ->
      value_of o = Ok events /\
      last_scanned_block (state_of o) = latest_block - confirmation_blocks /\
      state_file (state_of o)
        = file_after_save w (latest_block - confirmation_blocks) (state_file p) /\
      In (AWriteState (latest_block - confirmation_blocks)) (trace_of o)) /\
  ((forall latest_block flt events,
       ~ fetches_window node confirmation_blocks p latest_block flt events) ->
   value_of o = Ok [] /\
   state_of o = p /\
   forall v, ~ In (AWriteState v) (trace_of o)) /\
  (forall config env p0,
      state_of (run_cycle config env p0)
      = state_of (scan_for_events (source env) (write env)
                    (CONFIRMATION_BLOCKS config) p0)).
Proof.
  cbv zeta. split; [ | split ].
  - intros latest_block flt events (Hw & Hb & Hle & Hf & Hg).
    rewrite scan_fetched with (latest_block := latest_block) (flt := flt)
                              (events := events) by assumption.
    repeat split.
    unfold trace_of. cbn [fst]. apply in_or_app. right.
    apply in_or_app. right. left. reflexivity.
  - intros Hnot.
    destruct (web3 p) eqn:Hw;
      [ | rewrite scan_not_connected by assumption;
          repeat split; cbn; intuition discriminate ].
    destruct (block_number node) as [latest_block|e] eqn:Hb;
      [ | rewrite scan_height_fails with (e := e) by assumption;
          repeat split; cbn; intuition discriminate ].
    destruct (Z_gt_le_dec (last_scanned_block p + 1)
                (latest_block - confirmation_blocks)) as [Hgt|Hle];
      [ rewrite scan_waiting with (latest_block := latest_block) by assumption;
        repeat split; cbn; intuition discriminate | ].
    destruct (create_filter node (last_scanned_block p + 1)
                (latest_block - confirmation_blocks)) as [flt|e] eqn:Hf;
      [ | rewrite scan_filter_fails with (latest_block := latest_block) (e := e)
            by assumption;
          repeat split; cbn; intuition discriminate ].
    destruct (get_all_entries flt) as [events|e] eqn:Hg;
      [ | rewrite scan_entries_fail with (latest_block := latest_block)
                                         (flt := flt) (e := e) by assumption;
          repeat split; cbn; intuition discriminate ].
    exfalso. apply (Hnot latest_block flt events). repeat split; assumption.
  - intros config env p0. apply run_cycle_state.
Qed.

Lemma scan_commits_window_end_witness :
  (last_scanned_block (state_of scan_from_nine) = 15 /\
   state_file (state_of scan_from_nine) = FObject (Some 15) /\
   In (AWriteState 15) (trace_of scan_from_nine)) /\
  (value_of scan_timing_out = Ok [] /\
   state_of scan_timing_out = at_nine /\
   forall v, ~ In (AWriteState v) (trace_of scan_timing_out)).
Proof.
  split.
  - destruct (scan_commits_window_end (chain_node 20 sample_logs) WriteOk 5 at_nine)
      as (Hfetched & _ & _).
    destruct (Hfetched 20
                {| get_all_entries := Ok (filter (in_blocks 10 15) sample_logs) |}
                (filter (in_blocks 10 15) sample_logs))
      as (_ & Hmem & Hfile & Htrace).
    + repeat split. cbn. lia.
    + exact (conj Hmem (conj Hfile Htrace)).
  - destruct (scan_commits_window_end timing_out_node WriteOk 5 at_nine)
      as (_ & Hquiet & _).
    apply Hquiet.
    intros latest_block flt events (_ & _ & _ & Hf & Hg).
    cbn in Hf. inversion Hf; subst flt. discriminate Hg.
Defined.

(** C1 as worded fails: from checkpoint 9, with the chain at height 20 and
    5 confirmations, the scan itself moves the checkpoint to 15. *)
Lemma scanner_commits_from_nine :
  last_scanned_block at_nine = 9 /\
  state_file at_nine = FObject (Some 9) /\
  last_scanned_block (state_of scan_from_nine) = 15 /\
  state_file (state_of scan_from_nine) = FObject (Some 15) /\
  ~ scanner_never_commits.
Proof.
  repeat split.
  intros H.
  destruct (H (chain_node 20 sample_logs) WriteOk 5 at_nine _ eq_refl) as [Hmem _].
  vm_compute in Hmem. discriminate.
Qed.

(** C4: a scan that knows the height computes its window as from the
    checkpoint plus one to the latest block less the confirmations.  When
    the window is empty it asks for no filter; otherwise it asks for
    exactly one filter, over exactly this window, and returns the events
    the node answers for it, which lie in the blocks of the window when
    the node answers a filter with logs of its range (and the empty list
    when the fetch fails).  With latest 20, confirmations 5 and
    checkpoint 9 the filter is over the blocks 10 to 15. *)
Theorem scan_window
    node w confirmation_blocks p latest_block :
  web3 p = true ->
  block_number node = Ok latest_block ->
  let from_block := last_scanned_block p + 1 in
  let to_block := latest_block - confirmation_blocks in
  let o := scan_for_events node w confirmation_blocks p in
  (forall f t, In (ACreateFilter f t) (trace_of o) -> f = from_block /\ t = to_block) /\
  (from_block > to_block ->
   filter_requests (trace_of o) = [] /\ value_of o = Ok []) /\
  (from_block <= to_block ->
   filter_requests (trace_of o) = [(from_block, to_block)] /\
   (forall flt events,
       create_filter node from_block to_block = Ok flt ->
       get_all_entries flt = Ok events ->
       value_of o = Ok events /\
       (answers_in_range node ->
        Forall (fun e => in_blocks from_block to_block e = true) events)) /\
   (fetch_fails node from_block to_block -> value_of o = Ok [])).
Proof.
  intros Hw Hb from_block to_block o. subst from_block to_block o.
  split; [ | split ].
  - intros f t Hin.
    apply scan_requests_its_window in Hin as (Hfrom & l & Hl & Hto).
    rewrite Hb in Hl. inversion Hl; subst. split; reflexivity.
  - intros Hgt.
    rewrite scan_waiting with (latest_block := latest_block) by assumption.
    split; reflexivity.
  - intros Hle. split; [ | split ].
    + destruct (create_filter node (last_scanned_block p + 1)
                  (latest_block - confirmation_blocks)) as [flt|e] eqn:Hf;
        [ destruct (get_all_entries flt) as [events|e] eqn:Hg | ].
      * rewrite scan_fetched with (latest_block := latest_block) (flt := flt)
                                  (events := events) by assumption.
        destruct (truthy events), w; reflexivity.
      * rewrite scan_entries_fail with (latest_block := latest_block)
                                       (flt := flt) (e := e) by assumption.
        reflexivity.
      * rewrite scan_filter_fails with (latest_block := latest_block) (e := e)
          by assumption.
        reflexivity.
    + intros flt events Hf Hg.
      rewrite scan_fetched with (latest_block := latest_block) (flt := flt)
                                (events := events) by assumption.
      split; [ reflexivity | ].
      intros Hnode. exact (Hnode _ _ _ _ Hf Hg).
    + intros [(e & Hf)|(flt & e & Hf & Hg)].
      * rewrite scan_filter_fails with (latest_block := latest_block) (e := e)
          by assumption.
        reflexivity.
      * rewrite scan_entries_fail with (latest_block := latest_block)
                                       (flt := flt) (e := e) by assumption.
        reflexivity.
Qed.

Lemma scan_window_witness :
  filter_requests (trace_of scan_from_nine) = [(10, 15)] /\
  value_of scan_from_nine
  = Ok [log_at 10 "0xB" 2 [Byte.x02];
        log_at 12 "0xC" 3 [Byte.x03];
        log_at 15 "0xD" 4 [Byte.x04]] /\
  Forall (fun e => in_blocks 10 15 e = true)
    [log_at 10 "0xB" 2 [Byte.x02];
     log_at 12 "0xC" 3 [Byte.x03];
     log_at 15 "0xD" 4 [Byte.x04]].
Proof.
  destruct (scan_window (chain_node 20 sample_logs) WriteOk 5 at_nine 20
              eq_refl eq_refl) as (_ & _ & Hwindow).
  destruct (Hwindow ltac:(cbn; lia)) as (Hrequest & Hfetch & _).
  destruct (Hfetch {| get_all_entries := Ok (filter (in_blocks 10 15) sample_logs) |}
                   (filter (in_blocks 10 15) sample_logs) eq_refl eq_refl)
    as (Hvalue & Hrange).
  split; [ exact Hrequest | ].
  split; [ exact Hvalue | ].
  exact (Hrange (chain_node_answers_in_range 20 sample_logs)).
Defined.

(** The specification's example, evaluated: of the six logs in blocks 5,
    10, 12, 15, 16 and 20 the scan returns those of blocks 10, 12 and 15,
    having asked for the filter over 10 to 15. *)
Example scan_from_nine_returns :
  value_of scan_from_nine
  = Ok [log_at 10 "0xB" 2 [Byte.x02];
        log_at 12 "0xC" 3 [Byte.x03];
        log_at 15 "0xD" 4 [Byte.x04]]
  /\ In (ACreateFilter 10 15) (trace_of scan_from_nine).
Proof. split; [ reflexivity | cbn; auto ]. Qed.

(** C5: when the window is empty (from > to) the scan returns the empty
    list, leaves the checkpoint in memory and on disk as it was, and
    issues neither a filter request nor a write of the state file. *)
Theorem scan_empty_window_has_no_effect
    node w confirmation_blocks p latest_block :
  web3 p = true ->
  block_number node = Ok latest_block ->
  last_scanned_block p + 1 > latest_block - confirmation_blocks ->
  let o := scan_for_events node w confirmation_blocks p in
  value_of o = Ok [] /\
  state_of o = p /\
  filter is_fetch_or_write (trace_of o) = [].
Proof.
  intros Hw Hb Hgt o. subst o.
  rewrite scan_waiting with (latest_block := latest_block) by assumption.
  repeat split.
Qed.

Lemma scan_empty_window_has_no_effect_witness :
  value_of scan_too_early = Ok [] /\
  state_of scan_too_early = at_nine /\
  filter is_fetch_or_write (trace_of scan_too_early) = [].
Proof.
  exact (scan_empty_window_has_no_effect (chain_node 13 sample_logs) WriteOk 5 at_nine 13
           eq_refl eq_refl ltac:(cbn; lia)).
Defined.

(** C6: when the log fetch of a non-empty window raises, at the creation
    of the filter or at the retrieval of its entries, the scan returns the
    empty list and leaves the checkpoint in memory and on disk as it was;
    the next scan therefore asks again for a window that starts at the
    same block. *)
Theorem scan_fetch_failure_keeps_checkpoint
    node w confirmation_blocks p latest_block :
  web3 p = true ->
  block_number node = Ok latest_block ->
  last_scanned_block p + 1 <= latest_block - confirmation_blocks ->
  fetch_fails node (last_scanned_block p + 1) (latest_block - confirmation_blocks) ->
  let o := scan_for_events node w confirmation_blocks p in
  value_of o = Ok [] /\
  state_of o = p /\
  (forall a, In a (trace_of o) -> forall v, a <> AWriteState v) /\
  (forall node' w' f t,
      In (ACreateFilter f t)
         (trace_of (scan_for_events node' w' confirmation_blocks (state_of o))) ->
      f = last_scanned_block p + 1).
Proof.
  intros Hw Hb Hle Hfail o. subst o.
  assert (Hquiet :
            exists t, scan_for_events node w confirmation_blocks p = (t, p, Ok []) /\
                      forall a, In a t -> forall v, a <> AWriteState v).
  { destruct Hfail as [(e & Hf)|(flt & e & Hf & Hg)].
    - eexists. split; [ eapply scan_filter_fails; eassumption | ].
      cbn. intros a Ha v. intuition (subst; discriminate).
    - eexists. split; [ eapply scan_entries_fail; eassumption | ].
      cbn. intros a Ha v. intuition (subst; discriminate). }
  destruct Hquiet as (t & E & Hnw). rewrite E.
  repeat split.
  - exact Hnw.
  - intros node' w' f t' Hin. cbn in Hin.
    now apply scan_requests_its_window in Hin as (Hfrom & _).
Qed.

Lemma scan_fetch_failure_keeps_checkpoint_witness :
  value_of scan_timing_out = Ok [] /\
  state_of scan_timing_out = at_nine /\
  (forall a, In a (trace_of scan_timing_out) -> forall v, a <> AWriteState v) /\
  (forall node' w' f t,
      In (ACreateFilter f t)
         (trace_of (scan_for_events node' w' 5 (state_of scan_timing_out))) ->
      f = 10).
Proof.
  refine (scan_fetch_failure_keeps_checkpoint timing_out_node WriteOk 5 at_nine 20
            eq_refl eq_refl ltac:(cbn; lia) _).
  right. exists {| get_all_entries := Raise RPCError |}, RPCError.
  split; reflexivity.
Defined.

(** ** The relayer *)

(** C2, as the script has it: the relayer keeps no record of the events
    it has seen.  A second call for an event whose first call went
    through returns [None] like the first, leaves the same trace as the
    first when the destination node answers alike, hence builds and signs
    a transaction once more; neither call broadcasts anything. *)
Theorem relay_repeats_its_requests dest event_data p :
  relay_went_through dest event_data p ->
  let first := simulate_claim_withdrawal dest event_data p in
  let second := simulate_claim_withdrawal dest event_data (state_of first) in
  value_of first = Ok tt /\
  second = first /\
  (exists user amount sourceTxHash nonce claim_tx,
      relay_requests (trace_of second)
      = [ABuildTransaction user amount sourceTxHash nonce; ASignTransaction claim_tx]) /\
  never_sends (trace_of first ++ trace_of second).
Proof.
  intros Hthrough first second.
  destruct (simulate_claim_withdrawal_quiet dest event_data p) as (t & E & Hns).
  assert (Hsecond : second = first).
  { subst second first. rewrite E. cbn. exact E. }
  split; [ subst first; rewrite E; reflexivity | ].
  split; [ exact Hsecond | ].
  split.
  - rewrite Hsecond. subst first second. clear Hsecond E Hns t.
    unfold relay_went_through in Hthrough. revert Hthrough.
    unfold simulate_claim_withdrawal, subscript, is_Exception.
    unfold bind, try_except, call, log, emit, ret, raise, trace_of.
    destruct (dict_get "user" event_data) as [user|];
      [ | cbn; intuition discriminate ].
    destruct (dict_get "amount" event_data) as [amount|];
      [ | cbn; intuition discriminate ].
    destruct (get_transaction_count dest) as [nonce|];
      [ | cbn; intuition discriminate ].
    destruct (dict_get "sourceTxHash" event_data) as [hash|];
      [ | cbn; intuition discriminate ].
    destruct (build_transaction dest user amount hash nonce 200000 gas_price)
      as [claim_tx|]; [ | cbn; intuition discriminate ].
    destruct (sign_transaction dest claim_tx) as [signed_tx|];
      [ | cbn; intuition discriminate ].
    intros _. cbn. now exists user, amount, hash, nonce, claim_tx.
  - rewrite Hsecond. subst first. rewrite E. cbn. now apply never_sends_app.
Qed.

Lemma relay_repeats_its_requests_witness :
  relay_went_through good_dest sample_event_data at_nine /\
  second_relay = first_relay /\
  (exists user amount sourceTxHash nonce claim_tx,
      relay_requests (trace_of second_relay)
      = [ABuildTransaction user amount sourceTxHash nonce; ASignTransaction claim_tx]).
Proof.
  assert (Hthrough : relay_went_through good_dest sample_event_data at_nine).
  { unfold relay_went_through. cbn. do 4 right. left. reflexivity. }
  split; [ exact Hthrough | ].
  destruct (relay_repeats_its_requests good_dest sample_event_data at_nine Hthrough)
    as (_ & Hsame & Hreq & _).
  exact (conj Hsame Hreq).
Defined.

(** C2 as worded fails: after a first call that went through, the second
    call for the same event builds and signs a transaction again. *)
Lemma second_relay_builds_and_signs_again :
  relay_went_through good_dest sample_event_data at_nine /\
  relay_requests (trace_of second_relay)
  = [ABuildTransaction (PStr "0xB") (PInt 2) (PBytes [Byte.x02]) 7;
     ASignTransaction
       {| tx_user := PStr "0xB"; tx_amount := PInt 2;
          tx_sourceTxHash := PBytes [Byte.x02];
          tx_nonce := 7; tx_gas := 200000; tx_gasPrice := 50000000000 |}] /\
  ~ relay_is_idempotent.
Proof.
  assert (Hthrough : relay_went_through good_dest sample_event_data at_nine).
  { unfold relay_went_through. cbn. do 4 right. left. reflexivity. }
  split; [ exact Hthrough | ].
  split; [ reflexivity | ].
  intros H. specialize (H good_dest sample_event_data at_nine Hthrough).
  cbv zeta in H. vm_compute in H. discriminate.
Qed.

(** ** The checkpoint over a lifetime *)

Lemma boot_reads_back v node :
  boot (FObject (Some v)) node
  = ([AReadState; ALog INFO "Loaded last scanned block from state"],
     {| web3 := true; last_scanned_block := v; state_file := FObject (Some v) |},
     Ok tt).
Proof. reflexivity. Qed.


Lemma run_cycle_never_lowers config env p :
  last_scanned_block p <= last_scanned_block (state_of (run_cycle config env p)).
Proof.
  rewrite (proj1 (run_cycle_state config env p)).
  apply scan_for_events_never_lowers.
Qed.




(** ** Loading and saving the state file *)

(** C7, as the script has it: when the state file cannot be read or is
    not valid JSON, [_load_state] falls back to the current height of the
    source chain as it is, no confirmations subtracted (and to 0 when the
    connector holds no [web3]); the file itself is left as it is. *)
Theorem load_state_falls_back_to_current_block node p :
  state_file p = FCorrupt \/ state_file p = FUnreadable ->
  state_of (_load_state node p) = p /\
  (web3 p = true ->
   forall height, block_number node = Ok height ->
                  value_of (_load_state node p) = Ok height) /\
  (web3 p = false -> value_of (_load_state node p) = Ok 0).
Proof.
  intros Hfile. unfold _load_state, bind, get, try_except, call, log, emit, ret.
  destruct Hfile as [Hfile|Hfile]; rewrite Hfile; cbn;
    (split; [ destruct (web3 p); [ destruct (block_number node) | ]; reflexivity | ]);
    (split; [ intros Hw height Hb; rewrite Hw, Hb; reflexivity
            | intros Hw; rewrite Hw; reflexivity ]).
Qed.

Lemma load_state_falls_back_to_current_block_witness :
  state_of (_load_state (chain_node 20 sample_logs) corrupt_start) = corrupt_start /\
  value_of (_load_state (chain_node 20 sample_logs) corrupt_start) = Ok 20.
Proof.
  destruct (load_state_falls_back_to_current_block (chain_node 20 sample_logs)
              corrupt_start (or_introl eq_refl)) as (Hstate & Hvalue & _).
  exact (conj Hstate (Hvalue eq_refl 20 eq_refl)).
Defined.

(** C7 as worded fails: with the chain at height 20 and 5 confirmations,
    a state file that is not JSON makes the scanner start from 20, not
    from 15. *)
Lemma corrupt_file_restarts_at_current_block :
  value_of (_load_state (chain_node 20 sample_logs) corrupt_start) = Ok 20 /\
  20 - CONFIRMATION_BLOCKS sample_config = 15 /\
  ~ corrupt_file_falls_back_behind_confirmations.
Proof.
  split; [ reflexivity | ]. split; [ reflexivity | ].
  intros H.
  specialize (H (chain_node 20 sample_logs) 20 5 corrupt_start eq_refl eq_refl eq_refl).
  vm_compute in H. discriminate.
Qed.

(** C8, as the script has it: without a state file [_load_state] returns
    the current height of the source chain when the connector holds
    [web3], and 0 when it holds none; a state file that holds an object
    without the member ['last_scanned_block'] gives 0. *)
Theorem load_state_without_file node p :
  state_file p = FMissing ->
  (web3 p = true ->
   forall height, block_number node = Ok height ->
                  _load_state node p
                  = ([ABlockNumber;
                      ALog INFO "No valid state file found. Starting scan from current block"],
                     p, Ok height)) /\
  (web3 p = false -> _load_state node p = ([], p, Ok 0)) /\
  (forall q, state_file q = FObject None -> value_of (_load_state node q) = Ok 0).
Proof.
  intros Hfile. unfold _load_state, bind, get, try_except, call, log, emit, ret.
  split; [ | split ].
  - intros Hw height Hb. rewrite Hfile, Hw, Hb. reflexivity.
  - intros Hw. rewrite Hfile, Hw. reflexivity.
  - intros q Hq. rewrite Hq. reflexivity.
Qed.

Lemma load_state_without_file_witness :
  value_of (_load_state (chain_node 20 sample_logs) fresh_start) = Ok 20.
Proof.
  destruct (load_state_without_file (chain_node 20 sample_logs) fresh_start eq_refl)
    as (Hheight & _).
  rewrite (Hheight eq_refl 20 eq_refl). reflexivity.
Defined.

(** C8 as worded fails: without a state file and with the chain at height
    20 the scanner starts from 20, not from 0. *)
Lemma missing_file_starts_at_current_block :
  state_file fresh_start = FMissing /\
  value_of (_load_state (chain_node 20 sample_logs) fresh_start) = Ok 20 /\
  ~ missing_file_gives_zero.
Proof.
  split; [ reflexivity | ]. split; [ reflexivity | ].
  intros H. specialize (H (chain_node 20 sample_logs) fresh_start eq_refl).
  vm_compute in H. discriminate.
Qed.

(** [_save_state] never raises. *)
Lemma save_state_returns w p : value_of (_save_state w p) = Ok tt.
Proof. destruct w; reflexivity. Qed.

(** C9, as the script has it: when the write of the state file fails with
    an [IOError], [_save_state] catches it and logs an error; the scan
    still returns the events it fetched, the checkpoint in memory is at
    the window end, the state file does not hold it (left as it was when
    the file could not be opened, truncated otherwise), and the next scan
    asks for the blocks after the window end. *)
Theorem failed_save_is_logged_and_checkpoint_advances
    node w confirmation_blocks p latest_block flt events :
  web3 p = true ->
  block_number node = Ok latest_block ->
  last_scanned_block p + 1 <= latest_block - confirmation_blocks ->
  create_filter node (last_scanned_block p + 1) (latest_block - confirmation_blocks)
    = Ok flt ->
  get_all_entries flt = Ok events ->
  w <> WriteOk ->
  let o := scan_for_events node w confirmation_blocks p in
  value_of o = Ok events /\
  last_scanned_block (state_of o) = latest_block - confirmation_blocks /\
  state_file (state_of o)
    = match w with OpenFails => state_file p | _ => FCorrupt end /\
  In (ALog ERROR "Fatal: Could not save state") (trace_of o) /\
  (forall q, value_of (_save_state w q) = Ok tt) /\
  (forall node' w' f t,
      In (ACreateFilter f t)
         (trace_of (scan_for_events node' w' confirmation_blocks (state_of o))) ->
      f = latest_block - confirmation_blocks + 1).
Proof.
  intros Hw Hb Hle Hf Hg Hfail o. subst o.
  rewrite scan_fetched with (latest_block := latest_block) (flt := flt) (events := events)
    by assumption.
  split; [ reflexivity | ]. split; [ reflexivity | ].
  split; [ destruct w; [ congruence | reflexivity | reflexivity ] | ].
  split.
  { unfold trace_of. cbn [fst]. apply in_or_app. right. apply in_or_app. right.
    destruct w; [ congruence | | ]; right; left; reflexivity. }
  split; [ intros q; apply save_state_returns | ].
  intros node' w' f t Hin.
  change (state_of (?a, ?q, ?r)) with q in Hin.
  now apply scan_requests_its_window in Hin as (Hfrom & _).
Qed.

Lemma failed_save_is_logged_and_checkpoint_advances_witness :
  (exists events, value_of scan_from_nine_unsaved = Ok events /\ List.length events = 3%nat) /\
  last_scanned_block (state_of scan_from_nine_unsaved) = 15 /\
  state_file (state_of scan_from_nine_unsaved) = FObject (Some 9).
Proof.
  destruct (failed_save_is_logged_and_checkpoint_advances
              (chain_node 20 sample_logs) OpenFails 5 at_nine 20
              {| get_all_entries := Ok (filter (in_blocks 10 15) sample_logs) |}
              (filter (in_blocks 10 15) sample_logs)
              eq_refl eq_refl ltac:(cbn; lia) eq_refl eq_refl ltac:(discriminate))
    as (Hvalue & Hmem & Hfile & _).
  split; [ | exact (conj Hmem Hfile) ].
  eexists. split; [ exact Hvalue | reflexivity ].
Defined.

(** C9 as worded fails: when the state file cannot be opened for writing,
    the scan from checkpoint 9 returns its three events all the same and
    leaves the checkpoint at 15. *)
Lemma failed_save_is_swallowed :
  value_of scan_from_nine_unsaved = value_of scan_from_nine /\
  last_scanned_block (state_of scan_from_nine_unsaved) = 15 /\
  last_scanned_block at_nine = 9 /\
  ~ failed_save_is_surfaced.
Proof.
  split; [ reflexivity | ]. split; [ reflexivity | ]. split; [ reflexivity | ].
  intros H.
  destruct (H (chain_node 20 sample_logs) OpenFails 5 at_nine 20
              {| get_all_entries := Ok (filter (in_blocks 10 15) sample_logs) |}
              (filter (in_blocks 10 15) sample_logs)
              eq_refl eq_refl ltac:(cbn; lia) eq_refl eq_refl ltac:(discriminate))
    as [_ Hmem].
  vm_compute in Hmem. discriminate.
Qed.

(** ** The loop *)



(** A window whose first log lacks ['amount'] and whose second log meets
    a signer that refuses: the first is logged as incomplete, the second
    is built and fails at the signature, the third is built and signed. *)
Example mixed_window_is_processed_to_the_end :
  for_each_event mixed_dest 0 mixed_window at_nine
  = ([ALog ERROR "Event log is missing expected argument";
      ALog INFO "Processing event";
      ALog INFO "Preparing to relay claim";
      AGetTransactionCount;
      ABuildTransaction (PStr "0xC") (PInt 3) (PBytes [Byte.x03]) 7;
      ASignTransaction
        {| tx_user := PStr "0xC"; tx_amount := PInt 3;
           tx_sourceTxHash := PBytes [Byte.x03];
           tx_nonce := 7; tx_gas := 200000; tx_gasPrice := 50000000000 |};
      ALog ERROR "Failed to simulate and sign withdrawal claim";
      ALog INFO "Processing event";
      ALog INFO "Preparing to relay claim";
      AGetTransactionCount;
      ABuildTransaction (PStr "0xD") (PInt 4) (PBytes [Byte.x04]) 7;
      ASignTransaction
        {| tx_user := PStr "0xD"; tx_amount := PInt 4;
           tx_sourceTxHash := PBytes [Byte.x04];
           tx_nonce := 7; tx_gas := 200000; tx_gasPrice := 50000000000 |};
      ALog INFO "Successfully signed transaction to claim withdrawal.";
      ALog INFO "  - TX Hash (simulated)";
      ALog INFO "  - Raw TX (simulated)"],
     at_nine, Ok tt).
Proof. reflexivity. Qed.

(** ** Traces of a whole run *)

Lemma emits_only_ret {A} allowed (a : A) : emits_only allowed (ret a).
Proof. intros p. now exists [], (Ok a). Qed.

Lemma emits_only_raise {A} allowed e : emits_only allowed (@raise A e).
Proof. intros p. now exists [], (Raise e). Qed.

Lemma emits_only_call {A} allowed a (answer : result A) :
  allowed a = true -> emits_only allowed (call a answer).
Proof.
  intros Ha p. exists [a], answer. split; [ reflexivity | cbn; now rewrite Ha ].
Qed.

Lemma emits_only_bind {A B} allowed (c : M A) (k : A -> M B) :
  emits_only allowed c -> (forall a, emits_only allowed (k a)) ->
  emits_only allowed (bind c k).
Proof.
  intros Hc Hk p. destruct (Hc p) as (t1 & r1 & E1 & F1).
  unfold bind. rewrite E1. destruct r1 as [a|e].
  - destruct (Hk a p) as (t2 & r2 & E2 & F2). rewrite E2.
    exists (t1 ++ t2), r2. split; [ reflexivity | ].
    rewrite forallb_app, F1, F2. reflexivity.
  - now exists t1, (Raise e).
Qed.

Lemma emits_only_try_except {A} allowed (c : M A) classes (h : exn -> M A) :
  emits_only allowed c -> (forall e, emits_only allowed (h e)) ->
  emits_only allowed (try_except c classes h).
Proof.
  intros Hc Hh p. destruct (Hc p) as (t1 & r1 & E1 & F1).
  unfold try_except. rewrite E1. destruct r1 as [a|e].
  - now exists t1, (Ok a).
  - destruct (classes e).
    + destruct (Hh e p) as (t2 & r2 & E2 & F2). rewrite E2.
      exists (t1 ++ t2), r2. split; [ reflexivity | ].
      rewrite forallb_app, F1, F2. reflexivity.
    + now exists t1, (Raise e).
Qed.

Lemma emits_only_subscript allowed d key : emits_only allowed (subscript d key).
Proof.
  unfold subscript.
  destruct (dict_get key d); [ apply emits_only_ret | apply emits_only_raise ].
Qed.

Lemma emits_only_subscript_val allowed v key : emits_only allowed (subscript_val v key).
Proof.
  destruct v; cbn; try apply emits_only_raise. apply emits_only_subscript.
Qed.

Lemma emits_only_hex allowed v : emits_only allowed (hex v).
Proof. destruct v; cbn; first [ apply emits_only_ret | apply emits_only_raise ]. Qed.

Lemma emits_only_div_1e18 allowed v : emits_only allowed (div_1e18 v).
Proof. destruct v; cbn; first [ apply emits_only_ret | apply emits_only_raise ]. Qed.

Lemma emits_only_log allowed l msg :
  allowed (ALog l msg) = true -> emits_only allowed (log l msg).
Proof.
  intros Ha p. exists [ALog l msg], (Ok tt).
  split; [ reflexivity | cbn; now rewrite Ha ].
Qed.

Create HintDb relay_side.
#[local] Hint Resolve emits_only_ret emits_only_raise emits_only_subscript
  emits_only_subscript_val emits_only_hex emits_only_div_1e18 : relay_side.

Ltac relay_side_steps :=
  repeat (apply emits_only_bind; [ | intros ? ]);
  auto with relay_side;
  try (apply emits_only_log; reflexivity);
  try (apply emits_only_call; reflexivity).

Lemma simulate_claim_withdrawal_relay_side dest event_data :
  emits_only is_relay_side (simulate_claim_withdrawal dest event_data).
Proof.
  unfold simulate_claim_withdrawal.
  apply emits_only_try_except;
    [ relay_side_steps | intros e; apply emits_only_log; reflexivity ].
Qed.

Lemma process_event_relay_side dest event :
  emits_only is_relay_side (process_event dest event).
Proof.
  unfold process_event. apply emits_only_try_except.
  - relay_side_steps. apply simulate_claim_withdrawal_relay_side.
  - intros e. destruct (is_KeyError e); apply emits_only_log; reflexivity.
Qed.

Lemma event_traces_relay_side dest events :
  forall i p, forallb is_relay_side (event_traces dest i events p) = true.
Proof.
  induction events as [|event rest IH]; intros i p; [ reflexivity | ].
  cbn [event_traces]. rewrite forallb_app, IH.
  destruct (process_event_relay_side (dest i) event p) as (t & r & E & F).
  rewrite E. unfold trace_of. cbn. rewrite F. reflexivity.
Qed.

(** What a trace of relay-side actions cannot hold. *)
Lemma relay_side_holds_no_other t :
  forallb is_relay_side t = true ->
  filter_requests t = [] /\ sleeps t = [] /\ filter is_critical t = [] /\
  forall a, In a t -> is_relay_side a = true.
Proof.
  intros H. split; [ | split; [ | split ] ].
  - induction t as [|a t IH]; [ reflexivity | ].
    cbn in H. apply andb_prop in H as [Ha Ht].
    destruct a; try discriminate; cbn; auto.
  - induction t as [|a t IH]; [ reflexivity | ].
    cbn in H. apply andb_prop in H as [Ha Ht].
    destruct a; try discriminate; cbn; auto.
  - induction t as [|a t IH]; [ reflexivity | ].
    cbn in H. apply andb_prop in H as [Ha Ht].
    destruct a as [ | | | | | | | | | |l m]; try discriminate; cbn; auto.
    destruct l; try discriminate; cbn; auto.
  - now apply forallb_forall.
Qed.

Lemma filter_requests_app t1 t2 :
  filter_requests (t1 ++ t2) = filter_requests t1 ++ filter_requests t2.
Proof.
  induction t1 as [|a t1 IH]; [ reflexivity | ].
  destruct a; cbn; rewrite ?IH; reflexivity.
Qed.

Lemma sleeps_app t1 t2 : sleeps (t1 ++ t2) = sleeps t1 ++ sleeps t2.
Proof.
  induction t1 as [|a t1 IH]; [ reflexivity | ].
  destruct a; cbn; rewrite ?IH; reflexivity.
Qed.

(** The three ways a scan can end, with the window it asked for. *)
Lemma scan_for_events_summary node w confirmation_blocks p :
  let o := scan_for_events node w confirmation_blocks p in
  forallb is_scan_side (trace_of o) = true /\
  sleeps (trace_of o) = [] /\
  filter is_critical (trace_of o) = [] /\
  ((state_of o = p /\ value_of o = Ok [] /\ filter_requests (trace_of o) = []) \/
   (exists latest_block,
       last_scanned_block p + 1 <= latest_block - confirmation_blocks /\
       state_of o = p /\ value_of o = Ok [] /\
       filter_requests (trace_of o)
       = [(last_scanned_block p + 1, latest_block - confirmation_blocks)]) \/
   (exists latest_block events,
       last_scanned_block p + 1 <= latest_block - confirmation_blocks /\
       state_of o = committed w (latest_block - confirmation_blocks) p /\
       value_of o = Ok events /\
       filter_requests (trace_of o)
       = [(last_scanned_block p + 1, latest_block - confirmation_blocks)])).
Proof.
  cbv zeta.
  destruct (web3 p) eqn:Hw;
    [ | rewrite scan_not_connected by assumption; cbn; auto 10 ].
  destruct (block_number node) as [latest_block|e] eqn:Hb;
    [ | rewrite scan_height_fails with (e := e) by assumption; cbn; auto 10 ].
  destruct (Z_gt_le_dec (last_scanned_block p + 1) (latest_block - confirmation_blocks))
    as [Hgt|Hle];
    [ rewrite scan_waiting with (latest_block := latest_block) by assumption;
      cbn; auto 10 | ].
  destruct (create_filter node (last_scanned_block p + 1)
              (latest_block - confirmation_blocks)) as [flt|e] eqn:Hf.
  - destruct (get_all_entries flt) as [events|e] eqn:Hg.
    + rewrite scan_fetched with (latest_block := latest_block) (flt := flt)
                                (events := events) by assumption.
      repeat split; try (destruct (truthy events), w; reflexivity).
      right. right. exists latest_block, events.
      repeat split; try assumption.
      destruct (truthy events), w; reflexivity.
    + rewrite scan_entries_fail with (latest_block := latest_block) (flt := flt) (e := e)
        by assumption.
      repeat split. right. left. exists latest_block. repeat split. assumption.
  - rewrite scan_filter_fails with (latest_block := latest_block) (e := e) by assumption.
    repeat split. right. left. exists latest_block. repeat split. assumption.
Qed.

(** The trace of a turn of the loop, measure by measure. *)
Lemma run_cycle_measures config env p :
  let o := run_cycle config env p in
  let s := scan_for_events (source env) (write env) (CONFIRMATION_BLOCKS config) p in
  filter_requests (trace_of o) = filter_requests (trace_of s) /\
  sleeps (trace_of o) = [cycle_sleep config] /\
  filter is_critical (trace_of o)
  = (if BLOCK_PROCESSING_INTERVAL_SECONDS config <? 0
     then [ALog CRITICAL "A critical error occurred in the main loop"]
     else []).
Proof.
  cbv zeta.
  destruct (scan_for_events (source env) (write env) (CONFIRMATION_BLOCKS config) p)
    as [[ts p'] r] eqn:E.
  destruct (scan_for_events_returns (source env) (write env)
              (CONFIRMATION_BLOCKS config) p) as (events & Hv).
  destruct (scan_for_events_summary (source env) (write env)
              (CONFIRMATION_BLOCKS config) p) as (_ & Hsl & Hcr & _).
  rewrite E in Hv, Hsl, Hcr. cbn in Hv, Hsl, Hcr. subst r.
  rewrite (run_cycle_eq _ _ _ _ _ _ E). unfold trace_of. cbn [fst].
  assert (Hmid : exists mid,
             (if truthy events
              then event_traces (destination env) 0 events p'
              else [ALog INFO "No new events found. Waiting for next cycle."]) = mid /\
             filter_requests mid = [] /\ sleeps mid = [] /\ filter is_critical mid = []).
  { eexists. split; [ reflexivity | ].
    destruct (truthy events); [ | repeat split ].
    destruct (relay_side_holds_no_other _
                (event_traces_relay_side (destination env) events 0%nat p'))
      as (H1 & H2 & H3 & _).
    repeat split; assumption. }
  destruct Hmid as (mid & -> & Hm1 & Hm2 & Hm3).
  rewrite !filter_requests_app, !sleeps_app, !filter_app, Hm1, Hm2, Hm3, Hsl, Hcr.
  unfold cycle_sleep.
  destruct (BLOCK_PROCESSING_INTERVAL_SECONDS config <? 0); cbn;
    rewrite ?app_nil_r; repeat split.
Qed.

Lemma run_loop_cons config env rest p :
  trace_of (run_loop config (env :: rest) p)
  = trace_of (run_cycle config env p)
    ++ trace_of (run_loop config rest (state_of (run_cycle config env p)))
  /\ state_of (run_loop config (env :: rest) p)
     = state_of (run_loop config rest (state_of (run_cycle config env p))).
Proof.
  cbn [run_loop]. unfold bind.
  destruct (run_cycle_state config env p) as [_ Hv].
  destruct (run_cycle config env p) as [[t1 p1] r1]. cbn in Hv. subst r1.
  cbn. destruct (run_loop config rest p1) as [[t2 p2] r2]. split; reflexivity.
Qed.

Lemma scan_side_is_loop_action t :
  forallb is_scan_side t = true -> forallb is_loop_action t = true.
Proof.
  intros H. apply forallb_forall. intros a Ha.
  unfold is_loop_action. rewrite (proj1 (forallb_forall _ _) H a Ha). reflexivity.
Qed.

Lemma relay_side_is_loop_action t :
  forallb is_relay_side t = true -> forallb is_loop_action t = true.
Proof.
  intros H. apply forallb_forall. intros a Ha.
  unfold is_loop_action. rewrite (proj1 (forallb_forall _ _) H a Ha).
  now rewrite orb_true_r.
Qed.

Lemma run_cycle_actions config env p :
  forallb is_loop_action (trace_of (run_cycle config env p)) = true.
Proof.
  destruct (scan_for_events (source env) (write env) (CONFIRMATION_BLOCKS config) p)
    as [[ts p'] r] eqn:E.
  destruct (scan_for_events_returns (source env) (write env)
              (CONFIRMATION_BLOCKS config) p) as (events & Hv).
  destruct (scan_for_events_summary (source env) (write env)
              (CONFIRMATION_BLOCKS config) p) as (Hscan & _).
  rewrite E in Hv, Hscan. cbn in Hv, Hscan. subst r.
  rewrite (run_cycle_eq _ _ _ _ _ _ E). unfold trace_of. cbn [fst].
  rewrite !forallb_app, (scan_side_is_loop_action _ Hscan).
  assert (Hmid : forallb is_loop_action
                   (if truthy events
                    then event_traces (destination env) 0 events p'
                    else [ALog INFO "No new events found. Waiting for next cycle."])
                 = true).
  { destruct (truthy events); [ | reflexivity ].
    apply relay_side_is_loop_action, event_traces_relay_side. }
  rewrite Hmid.
  destruct (BLOCK_PROCESSING_INTERVAL_SECONDS config <? 0); reflexivity.
Qed.

Lemma run_loop_actions config cycles :
  forall p, forallb is_loop_action (trace_of (run_loop config cycles p)) = true.
Proof.
  induction cycles as [|env rest IH]; intros p; [ reflexivity | ].
  rewrite (proj1 (run_loop_cons config env rest p)), forallb_app.
  rewrite run_cycle_actions, IH. reflexivity.
Qed.

(** A stretch of trace without filter request, entries or write of the
    state file does not show in the attempts. *)
Lemma plain_prefix t more :
  Forall (fun a => is_fetch_or_write a = false) t ->
  writes_before_next_filter (t ++ more) = writes_before_next_filter more /\
  fetch_attempts (t ++ more) = fetch_attempts more.
Proof.
  induction 1 as [|a t Ha Ht IH]; [ split; reflexivity | ].
  destruct IH as [IHw IHf]. destruct a; try discriminate; cbn; auto.
Qed.

Lemma relay_side_is_plain t :
  forallb is_relay_side t = true -> Forall (fun a => is_fetch_or_write a = false) t.
Proof.
  intros H. apply Forall_forall. intros a Ha.
  apply (proj1 (forallb_forall _ _) H) in Ha. destruct a; try discriminate; reflexivity.
Qed.

(** The attempt a scan adds in front of what follows it. *)
Lemma scan_attempts node w confirmation_blocks p more :
  let o := scan_for_events node w confirmation_blocks p in
  (state_of o = p /\
   fetch_attempts (trace_of o ++ more) = fetch_attempts more /\
   writes_before_next_filter (trace_of o ++ more) = writes_before_next_filter more) \/
  (exists latest_block,
      web3 p = true /\ block_number node = Ok latest_block /\
      last_scanned_block p + 1 <= latest_block - confirmation_blocks /\
      fetch_fails node (last_scanned_block p + 1) (latest_block - confirmation_blocks) /\
      state_of o = p /\
      fetch_attempts (trace_of o ++ more)
      = (last_scanned_block p + 1, latest_block - confirmation_blocks,
         writes_before_next_filter more) :: fetch_attempts more /\
      writes_before_next_filter (trace_of o ++ more) = false) \/
  (exists latest_block flt events,
      fetches_window node confirmation_blocks p latest_block flt events /\
      state_of o = committed w (latest_block - confirmation_blocks) p /\
      fetch_attempts (trace_of o ++ more)
      = (last_scanned_block p + 1, latest_block - confirmation_blocks, true)
        :: fetch_attempts more /\
      writes_before_next_filter (trace_of o ++ more) = false).
Proof.
  cbv zeta.
  destruct (web3 p) eqn:Hw;
    [ | rewrite scan_not_connected by assumption; left; repeat split ].
  destruct (block_number node) as [latest_block|e] eqn:Hb;
    [ | rewrite scan_height_fails with (e := e) by assumption; left; repeat split ].
  destruct (Z_gt_le_dec (last_scanned_block p + 1) (latest_block - confirmation_blocks))
    as [Hgt|Hle];
    [ rewrite scan_waiting with (latest_block := latest_block) by assumption;
      left; repeat split | ].
  destruct (create_filter node (last_scanned_block p + 1)
              (latest_block - confirmation_blocks)) as [flt|e] eqn:Hf.
  - destruct (get_all_entries flt) as [events|e] eqn:Hg.
    + right. right. exists latest_block, flt, events.
      split; [ repeat split; assumption | ].
      rewrite scan_fetched with (latest_block := latest_block) (flt := flt)
                                (events := events) by assumption.
      destruct (truthy events), w; repeat split.
    + right. left. exists latest_block.
      rewrite scan_entries_fail with (latest_block := latest_block) (flt := flt) (e := e)
        by assumption.
      repeat split; try assumption. right. now exists flt, e.
  - right. left. exists latest_block.
    rewrite scan_filter_fails with (latest_block := latest_block) (e := e) by assumption.
    repeat split; try assumption. left. now exists e.
Qed.

(** What follows the scan in a turn of the loop is plain. *)
Lemma run_cycle_after_scan config env p ts p' events :
  scan_for_events (source env) (write env) (CONFIRMATION_BLOCKS config) p
    = (ts, p', Ok events) ->
  exists after,
    trace_of (run_cycle config env p) = ts ++ after /\
    Forall (fun a => is_fetch_or_write a = false) after.
Proof.
  intros E. rewrite (run_cycle_eq _ _ _ _ _ _ E). unfold trace_of. cbn [fst].
  eexists. split; [ reflexivity | ].
  apply Forall_app. split.
  - destruct (truthy events); [ | repeat constructor ].
    apply relay_side_is_plain, event_traces_relay_side.
  - destruct (BLOCK_PROCESSING_INTERVAL_SECONDS config <? 0); repeat constructor.
Qed.

Lemma run_loop_attempts config cycles :
  forall p,
    writes_before_next_filter (trace_of (run_loop config cycles p)) = false /\
    retried_or_followed (fetch_attempts (trace_of (run_loop config cycles p))) /\
    match fetch_attempts (trace_of (run_loop config cycles p)) with
    | [] => True
    | (f, _, _) :: _ => f = last_scanned_block p + 1
    end.
Proof.
  induction cycles as [|env rest IH]; intros p.
  - cbn. auto.
  - rewrite (proj1 (run_loop_cons config env rest p)).
    rewrite (proj1 (run_cycle_state config env p)).
    destruct (scan_for_events (source env) (write env) (CONFIRMATION_BLOCKS config) p)
      as [[ts p1] r] eqn:E.
    destruct (scan_for_events_returns (source env) (write env)
                (CONFIRMATION_BLOCKS config) p) as (events & Hv).
    rewrite E in Hv. cbn in Hv. subst r.
    destruct (run_cycle_after_scan _ _ _ _ _ _ E) as (after & -> & Hplain).
    cbn [state_of fst snd]. rewrite <- app_assoc.
    destruct (plain_prefix after (trace_of (run_loop config rest p1)) Hplain)
      as [Hw' Hf'].
    destruct (IH p1) as (IHw & IHchain & IHhead).
    pose proof (scan_attempts (source env) (write env) (CONFIRMATION_BLOCKS config) p
                  (after ++ trace_of (run_loop config rest p1))) as Hscan.
    cbv zeta in Hscan. rewrite E in Hscan. cbn [state_of trace_of fst snd] in Hscan.
    rewrite Hw', Hf', IHw in Hscan.
    destruct Hscan as [(Hs & Ha & Hwb)
                      |[(l & _ & _ & Hle & _ & Hs & Ha & Hwb)
                       |(l & flt & ev & (_ & _ & Hle & _) & Hs & Ha & Hwb)]];
      unfold trace_of in *; cbn [fst] in *; rewrite Ha, Hwb; subst p1.
    + auto.
    + split; [ reflexivity | ].
      destruct (fetch_attempts (fst (fst (run_loop config rest p)))) as [|[[f2 t2] b2] more];
        cbn; auto.
    + split; [ reflexivity | ].
      destruct (fetch_attempts
                  (fst (fst (run_loop config rest
                               (committed (write env) (l - CONFIRMATION_BLOCKS config) p)))))
        as [|[[f2 t2] b2] more]; cbn; auto.
Qed.

(** X6. Over any number of turns of the loop, the windows asked of the
    source node are well-formed, the first starts right after the
    checkpoint, and the window asked after a window that was not fetched
    starts at the same block (a retry), while the window asked after a
    fetched window starts right after its end: no block is skipped and
    none is asked for again once fetched.  A window counts as fetched
    when the write of the state file follows its request, which a scan
    does exactly when both calls of the fetch answered. *)
Theorem run_windows_retry_or_follow config cycles :
  forall p,
    let attempts := fetch_attempts (trace_of (run_loop config cycles p)) in
    (retried_or_followed attempts /\
     match attempts with
     | [] => True
     | (f, _, _) :: _ => f = last_scanned_block p + 1
     end) /\
    (forall node w latest_block flt events,
        fetches_window node (CONFIRMATION_BLOCKS config) p latest_block flt events ->
        fetch_attempts (trace_of (scan_for_events node w (CONFIRMATION_BLOCKS config) p))
        = [(last_scanned_block p + 1, latest_block - CONFIRMATION_BLOCKS config, true)]) /\
    (forall node w latest_block,
        web3 p = true ->
        block_number node = Ok latest_block ->
        last_scanned_block p + 1 <= latest_block - CONFIRMATION_BLOCKS config ->
        fetch_fails node (last_scanned_block p + 1)
          (latest_block - CONFIRMATION_BLOCKS config) ->
        fetch_attempts (trace_of (scan_for_events node w (CONFIRMATION_BLOCKS config) p))
        = [(last_scanned_block p + 1, latest_block - CONFIRMATION_BLOCKS config, false)]).
Proof.
  intros p. cbv zeta. split; [ | split ].
  - destruct (run_loop_attempts config cycles p) as (_ & Hchain & Hhead). now split.
  - intros node w latest_block flt events (Hw & Hb & Hle & Hf & Hg).
    rewrite scan_fetched with (latest_block := latest_block) (flt := flt)
                              (events := events) by assumption.
    destruct (truthy events), w; reflexivity.
  - intros node w latest_block Hw Hb Hle [(e & Hf)|(flt & e & Hf & Hg)].
    + rewrite scan_filter_fails with (latest_block := latest_block) (e := e)
        by assumption.
      reflexivity.
    + rewrite scan_entries_fail with (latest_block := latest_block) (flt := flt) (e := e)
        by assumption.
      reflexivity.
Qed.

Lemma run_windows_retry_or_follow_witness :
  fetch_attempts (trace_of (run_loop sample_config three_cycles at_nine))
  = [(10, 15, false); (10, 15, true); (16, 25, true)] /\
  retried_or_followed (fetch_attempts (trace_of (run_loop sample_config three_cycles at_nine))) /\
  fetch_attempts (trace_of scan_from_nine) = [(10, 15, true)] /\
  fetch_attempts (trace_of scan_timing_out) = [(10, 15, false)].
Proof.
  destruct (run_windows_retry_or_follow sample_config three_cycles at_nine)
    as ((Hchain & _) & Hfetched & Hfailed).
  split; [ reflexivity | ]. split; [ exact Hchain | ]. split.
  - apply (Hfetched (chain_node 20 sample_logs) WriteOk 20
             {| get_all_entries := Ok (filter (in_blocks 10 15) sample_logs) |}
             (filter (in_blocks 10 15) sample_logs)).
    repeat split. cbn. lia.
  - apply (Hfailed timing_out_node WriteOk 20 eq_refl eq_refl ltac:(cbn; lia)).
    right. exists {| get_all_entries := Raise RPCError |}, RPCError. split; reflexivity.
Defined.

(** X7. A run never broadcasts a transaction and never reads the state
    file back: every action of its trace is one of the scan (height
    query, filter, entries, write of the state file, log), one of the
    handling of an event (nonce query, build, sign, log), a sleep or a
    critical log. *)
Theorem run_never_broadcasts config cycles p :
  forallb is_loop_action (trace_of (run config cycles p)) = true /\
  never_sends (trace_of (run config cycles p)) /\
  ~ In AReadState (trace_of (run config cycles p)).
Proof.
  assert (Hall : forallb is_loop_action (trace_of (run config cycles p)) = true).
  { unfold run, bind, log, emit. cbn.
    pose proof (run_loop_actions config cycles p) as H.
    destruct (run_loop config cycles p) as [[t p'] r]. exact H. }
  split; [ exact Hall | ].
  split.
  - intros tx Hin. apply (proj1 (forallb_forall _ _) Hall) in Hin. discriminate.
  - intros Hin. apply (proj1 (forallb_forall _ _) Hall) in Hin. discriminate.
Qed.



(** The windows of three turns: a fetch that fails, its retry, and the
    window that follows. *)
Example three_cycles_windows :
  filter_requests (trace_of (run_loop sample_config three_cycles at_nine))
  = [(10, 15); (10, 15); (16, 25)].
Proof. reflexivity. Qed.

(** ** The handling of one event *)

Ltac run_handler :=
  unfold process_event, try_except, bind, subscript_val, subscript, hex, div_1e18,
    ret, raise, log, emit, is_Exception.



(** X10. For an event log that has its fields, with an amount in the
    range of [uint256] as the ABI of the event declares it, the handler
    calls the relayer with exactly the user, the amount and the
    transaction hash of the log: its trace is one info record followed by
    the trace of that call, and when the nonce query answers, the
    transaction is built from these three values and that nonce. *)
Theorem process_event_relays_the_event_fields dest event p user amount tx_hash :
  event_fields event = Some (user, PInt amount, tx_hash) ->
  0 <= amount < 2 ^ 256 ->
  process_event dest event p
  = (ALog INFO "Processing event"
     :: trace_of (simulate_claim_withdrawal dest
                    [("user", user); ("amount", PInt amount);
                     ("sourceTxHash", tx_hash)] p),
     p, Ok tt) /\
  (forall nonce,
      get_transaction_count dest = Ok nonce ->
      In (ABuildTransaction user (PInt amount) tx_hash nonce)
         (trace_of (process_event dest event p))).
Proof.
  unfold event_fields. intros Hsome _.
  destruct (dict_get "args" event) as [[z|s|b|args]|] eqn:Ha; try discriminate.
  destruct (dict_get "user" args) as [u|] eqn:Hu; try discriminate.
  destruct (dict_get "amount" args) as [[a|s|b|d]|] eqn:Hamt; try discriminate.
  destruct (dict_get "transactionHash" event) as [[z|s|h|d]|] eqn:Hh; try discriminate.
  inversion Hsome; subst user amount tx_hash; clear Hsome.
  assert (Heq : process_event dest event p
                = (ALog INFO "Processing event"
                   :: trace_of (simulate_claim_withdrawal dest
                                  [("user", u); ("amount", PInt a);
                                   ("sourceTxHash", PBytes h)] p),
                   p, Ok tt)).
  { destruct (simulate_claim_withdrawal_quiet dest
                [("user", u); ("amount", PInt a); ("sourceTxHash", PBytes h)] p)
      as (t & E & _).
    run_handler. rewrite Ha. cbn -[simulate_claim_withdrawal].
    rewrite Hu, Hamt. cbn -[simulate_claim_withdrawal].
    rewrite Hh. cbn -[simulate_claim_withdrawal].
    rewrite E. reflexivity. }
  split; [ exact Heq | ].
  intros nonce Hn. rewrite Heq. unfold trace_of. cbn [fst]. right.
  unfold simulate_claim_withdrawal, try_except, bind, subscript, call, log, emit,
    ret, raise. cbn. rewrite Hn. cbn.
  destruct (build_transaction dest u (PInt a) (PBytes h) nonce 200000 50000000000)
    as [tx|e]; cbn; [ destruct (sign_transaction dest tx); cbn | ]; auto.
Qed.

Lemma process_event_relays_the_event_fields_witness :
  In (ABuildTransaction (PStr "0xB") (PInt 2) (PBytes [Byte.x02]) 7)
     (trace_of (process_event good_dest (log_at 10 "0xB" 2 [Byte.x02]) at_nine)).
Proof.
  refine (proj2 (process_event_relays_the_event_fields good_dest
                   (log_at 10 "0xB" 2 [Byte.x02]) at_nine
                   (PStr "0xB") 2 (PBytes [Byte.x02]) eq_refl _) 7 eq_refl).
  split; [ lia | reflexivity ].
Defined.

(** X11. The relayer signs only what it built: a signature request in
    the trace of a call is for the transaction that [build_transaction]
    returned for the user, amount and source hash of the event data, the
    nonce the node answered, gas 200000 and a gas price of 50 gwei; the
    requests of the call are then exactly that build and that signature. *)
Theorem relayer_signs_only_what_it_built dest event_data p tx :
  In (ASignTransaction tx) (trace_of (simulate_claim_withdrawal dest event_data p)) ->
  exists user amount sourceTxHash nonce,
    dict_get "user" event_data = Some user /\
    dict_get "amount" event_data = Some amount /\
    dict_get "sourceTxHash" event_data = Some sourceTxHash /\
    get_transaction_count dest = Ok nonce /\
    build_transaction dest user amount sourceTxHash nonce 200000 (50 * 10 ^ 9) = Ok tx /\
    relay_requests (trace_of (simulate_claim_withdrawal dest event_data p))
    = [ABuildTransaction user amount sourceTxHash nonce; ASignTransaction tx].
Proof.
  unfold simulate_claim_withdrawal, try_except, bind, subscript, call, log, emit,
    ret, raise, is_Exception, trace_of.
  destruct (dict_get "user" event_data) as [user|];
    [ | cbn; intuition discriminate ].
  destruct (dict_get "amount" event_data) as [amount|];
    [ | cbn; intuition discriminate ].
  destruct (get_transaction_count dest) as [nonce|];
    [ | cbn; intuition discriminate ].
  destruct (dict_get "sourceTxHash" event_data) as [hash|];
    [ | cbn; intuition discriminate ].
  destruct (build_transaction dest user amount hash nonce 200000 gas_price)
    as [claim_tx|] eqn:Hbuild; [ | cbn; intuition discriminate ].
  destruct (sign_transaction dest claim_tx) as [signed_tx|]; cbn;
    intros [H|[H|[H|[H|H]]]]; try discriminate;
    try (inversion H; subst; exists user, amount, hash, nonce;
         repeat split; assumption).
  - destruct H as [H|[H|[H|[]]]]; discriminate.
  - destruct H as [H|[]]; discriminate.
Qed.

Lemma relayer_signs_only_what_it_built_witness :
  exists user amount sourceTxHash nonce,
    dict_get "user" sample_event_data = Some user /\
    dict_get "amount" sample_event_data = Some amount /\
    dict_get "sourceTxHash" sample_event_data = Some sourceTxHash /\
    get_transaction_count good_dest = Ok nonce /\
    build_transaction good_dest user amount sourceTxHash nonce 200000 (50 * 10 ^ 9)
    = Ok {| tx_user := PStr "0xB"; tx_amount := PInt 2;
            tx_sourceTxHash := PBytes [Byte.x02];
            tx_nonce := 7; tx_gas := 200000; tx_gasPrice := 50000000000 |} /\
    relay_requests (trace_of first_relay)
    = [ABuildTransaction user amount sourceTxHash nonce;
       ASignTransaction
         {| tx_user := PStr "0xB"; tx_amount := PInt 2;
            tx_sourceTxHash := PBytes [Byte.x02];
            tx_nonce := 7; tx_gas := 200000; tx_gasPrice := 50000000000 |}].
Proof.
  apply (relayer_signs_only_what_it_built good_dest sample_event_data at_nine).
  cbn. do 3 right. left. reflexivity.
Defined.

(** ** The checkpoint between a scan and a restart *)

(** X1. Checkpoint round trip: after a scan that fetched its window and
    wrote the state file, a restart reads back exactly the window end,
    without asking any node for its height, and the first scan of the new
    process asks for the blocks right after that window. *)
Theorem restart_resumes_after_committed_window
    node confirmation_blocks p latest_block flt events node' :
  web3 p = true ->
  block_number node = Ok latest_block ->
  last_scanned_block p + 1 <= latest_block - confirmation_blocks ->
  create_filter node (last_scanned_block p + 1) (latest_block - confirmation_blocks)
    = Ok flt ->
  get_all_entries flt = Ok events ->
  let after := state_of (scan_for_events node WriteOk confirmation_blocks p) in
  exists t restarted,
    boot (state_file after) node' = (t, restarted, Ok tt) /\
    last_scanned_block restarted = last_scanned_block after /\
    last_scanned_block restarted = latest_block - confirmation_blocks /\
    ~ In ABlockNumber t /\
    (forall node'' w f t',
        In (ACreateFilter f t')
           (trace_of (scan_for_events node'' w confirmation_blocks restarted)) ->
        f = latest_block - confirmation_blocks + 1).
Proof.
  intros Hw Hb Hle Hf Hg after. subst after.
  rewrite scan_fetched with (latest_block := latest_block) (flt := flt) (events := events)
    by assumption.
  cbn [state_of fst snd committed state_file file_after_save last_scanned_block].
  rewrite boot_reads_back. eexists. eexists.
  split; [ reflexivity | ].
  split; [ reflexivity | ]. split; [ reflexivity | ].
  split; [ cbn; intuition discriminate | ].
  intros node'' w f t' Hin.
  now apply scan_requests_its_window in Hin as (Hfrom & _).
Qed.

Lemma restart_resumes_after_committed_window_witness :
  exists t restarted,
    boot (state_file (state_of scan_from_nine)) (chain_node 30 sample_logs)
    = (t, restarted, Ok tt) /\
    last_scanned_block restarted = 15.
Proof.
  destruct (restart_resumes_after_committed_window
              (chain_node 20 sample_logs) 5 at_nine 20
              {| get_all_entries := Ok (filter (in_blocks 10 15) sample_logs) |}
              (filter (in_blocks 10 15) sample_logs) (chain_node 30 sample_logs)
              eq_refl eq_refl ltac:(cbn; lia) eq_refl eq_refl)
    as (t & restarted & Hboot & _ & Hend & _).
  exists t, restarted. split; [ exact Hboot | exact Hend ].
Defined.

(** X2. A write of the state file that fails after the file was opened
    leaves a truncated file: the scan still returns its events, and a
    restart no longer finds the checkpoint and starts from the height the
    node reports then, whatever the checkpoint was. *)
Theorem restart_after_truncated_write_starts_at_current_block
    node confirmation_blocks p latest_block flt events node' height :
  web3 p = true ->
  block_number node = Ok latest_block ->
  last_scanned_block p + 1 <= latest_block - confirmation_blocks ->
  create_filter node (last_scanned_block p + 1) (latest_block - confirmation_blocks)
    = Ok flt ->
  get_all_entries flt = Ok events ->
  block_number node' = Ok height ->
  let o := scan_for_events node DumpFails confirmation_blocks p in
  value_of o = Ok events /\
  state_file (state_of o) = FCorrupt /\
  exists t restarted,
    boot (state_file (state_of o)) node' = (t, restarted, Ok tt) /\
    last_scanned_block restarted = height.
Proof.
  intros Hw Hb Hle Hf Hg Hh o. subst o.
  rewrite scan_fetched with (latest_block := latest_block) (flt := flt) (events := events)
    by assumption.
  split; [ reflexivity | ]. split; [ reflexivity | ].
  cbn [state_of fst snd committed state_file file_after_save].
  unfold boot, EventScanner_init, _load_state, bind, get, try_except, call, log, emit,
    ret, modify.
  cbn. rewrite Hh. cbn. eexists. eexists. split; reflexivity.
Qed.

Lemma restart_after_truncated_write_starts_at_current_block_witness :
  value_of scan_from_nine_truncated = value_of scan_from_nine /\
  state_file (state_of scan_from_nine_truncated) = FCorrupt /\
  exists t restarted,
    boot (state_file (state_of scan_from_nine_truncated)) (chain_node 30 sample_logs)
    = (t, restarted, Ok tt) /\
    last_scanned_block restarted = 30.
Proof.
  exact (restart_after_truncated_write_starts_at_current_block
           (chain_node 20 sample_logs) 5 at_nine 20
           {| get_all_entries := Ok (filter (in_blocks 10 15) sample_logs) |}
           (filter (in_blocks 10 15) sample_logs) (chain_node 30 sample_logs) 30
           eq_refl eq_refl ltac:(cbn; lia) eq_refl eq_refl eq_refl).
Defined.

(** X3. [_load_state] never changes the process or the state file.  A
    state file that holds valid JSON which is not an object makes it
    raise [AttributeError], which its [except] clause does not name, so
    the constructor of the scanner fails instead of falling back; and
    when no usable state file is there (none, unreadable, or not JSON)
    and the height query of the fallback raises, that exception leaves
    the method as well. *)
Theorem load_state_raises_on_non_object_or_failed_fallback node p :
  state_of (_load_state node p) = p /\
  (state_file p = FNotAnObject ->
   _load_state node p = ([AReadState], p, Raise AttributeError)) /\
  (forall e,
      web3 p = true ->
      state_file p = FMissing \/ state_file p = FUnreadable \/ state_file p = FCorrupt ->
      block_number node = Raise e ->
      value_of (_load_state node p) = Raise e /\
      value_of (EventScanner_init node p) = Raise e).
Proof.
  unfold EventScanner_init, _load_state, bind, get, try_except, call, log, emit,
    ret, raise, modify.
  split; [ | split ].
  - destruct (state_file p); destruct (web3 p);
      destruct (block_number node); reflexivity.
  - intros ->. reflexivity.
  - intros e Hw Hfile Hb. rewrite Hw, Hb.
    destruct Hfile as [->|[->| ->]]; split; reflexivity.
Qed.

Lemma load_state_raises_on_non_object_or_failed_fallback_witness :
  _load_state (chain_node 20 sample_logs) list_start
  = ([AReadState], list_start, Raise AttributeError).
Proof.
  destruct (load_state_raises_on_non_object_or_failed_fallback
              (chain_node 20 sample_logs) list_start) as (_ & Hlist & _).
  exact (Hlist eq_refl).
Defined.

(** ** What a scan returns *)

(** X4. A scan never raises, and it returns a non-empty list of events
    only after it has moved the checkpoint past them: the checkpoint is
    then at the window end, strictly above where it was, and the write of
    the state file has been attempted.  Within a run no event is
    therefore handed out twice. *)
Theorem scan_returns_events_only_after_commit node w confirmation_blocks p :
  exists events,
    value_of (scan_for_events node w confirmation_blocks p) = Ok events /\
    (events <> [] ->
     exists latest_block,
       block_number node = Ok latest_block /\
       last_scanned_block p < latest_block - confirmation_blocks /\
       last_scanned_block (state_of (scan_for_events node w confirmation_blocks p))
       = latest_block - confirmation_blocks /\
       In (AWriteState (latest_block - confirmation_blocks))
          (trace_of (scan_for_events node w confirmation_blocks p))).
Proof.
  destruct (scan_for_events_cases node w confirmation_blocks p)
    as [(t & E)|(l & flt & events & t & Hw & Hb & Hle & Hf & Hg & E)].
  - rewrite E. exists []. split; [ reflexivity | congruence ].
  - exists events. rewrite E. split; [ reflexivity | ].
    intros _. exists l. split; [ assumption | ]. split; [ lia | ].
    split; [ reflexivity | ].
    rewrite <- E.
    rewrite scan_fetched with (latest_block := l) (flt := flt) (events := events)
      by assumption.
    unfold trace_of. cbn [fst]. apply in_or_app. right. apply in_or_app. right.
    left. reflexivity.
Qed.

Lemma scan_returns_events_only_after_commit_witness :
  exists latest_block,
    block_number (chain_node 20 sample_logs) = Ok latest_block /\
    last_scanned_block at_nine < latest_block - 5 /\
    last_scanned_block (state_of scan_from_nine) = latest_block - 5 /\
    In (AWriteState (latest_block - 5)) (trace_of scan_from_nine).
Proof.
  destruct (scan_returns_events_only_after_commit (chain_node 20 sample_logs)
              WriteOk 5 at_nine) as (events & Hv & Hcommit).
  apply Hcommit. intros ->. discriminate Hv.
Defined.

(** X5. Without a height the scan asks for nothing: when the connector
    holds no [web3], or when the height query raises, the scan returns
    the empty list, leaves the checkpoint as it was, and issues neither a
    filter request nor a write of the state file; without [web3] it does
    not even ask for the height. *)
Theorem scan_without_height_asks_for_nothing node w confirmation_blocks p :
  web3 p = false \/ (exists e, block_number node = Raise e) ->
  let o := scan_for_events node w confirmation_blocks p in
  value_of o = Ok [] /\
  state_of o = p /\
  filter is_fetch_or_write (trace_of o) = [] /\
  (web3 p = false -> ~ In ABlockNumber (trace_of o)).
Proof.
  intros Hcase o. subst o.
  destruct (web3 p) eqn:Hw.
  - destruct Hcase as [Hoff|(e & Hb)]; [ discriminate | ].
    rewrite scan_height_fails with (e := e) by assumption.
    repeat split. discriminate.
  - rewrite scan_not_connected by assumption.
    repeat split. intros _ [H|[]]. discriminate.
Qed.

Lemma scan_without_height_asks_for_nothing_witness :
  value_of (scan_for_events (chain_node 20 sample_logs) WriteOk 5 offline_nine) = Ok [] /\
  state_of (scan_for_events (chain_node 20 sample_logs) WriteOk 5 offline_nine)
  = offline_nine /\
  filter is_fetch_or_write
    (trace_of (scan_for_events (chain_node 20 sample_logs) WriteOk 5 offline_nine)) = [].
Proof.
  destruct (scan_without_height_asks_for_nothing (chain_node 20 sample_logs) WriteOk 5
              offline_nine (or_introl eq_refl)) as (Hv & Hs & Hf & _).
  exact (conj Hv (conj Hs Hf)).
Defined.

(** ** The configuration *)

Lemma is_set_test env key value :
  getenv env key = Some value ->
  (String.eqb value "" = false <-> is_set env key).
Proof.
  intros Hget. split.
  - intros Hne. exists value. split; [ assumption | ].
    now apply String.eqb_neq.
  - intros (v & Hv & Hne). rewrite Hget in Hv. inversion Hv; subst.
    now apply String.eqb_neq.
Qed.

Lemma unset_is_not_set env key : getenv env key = None -> ~ is_set env key.
Proof. intros Hnone (v & Hv & _). congruence. Qed.

(** The loop over the required keys fails at the first key that is unset
    or empty, and only there. *)
Lemma read_keys_failed env keys :
  forall config t e,
    read_keys env keys config = (t, Failed e) ->
    exists before key after,
      keys = before ++ key :: after /\
      e = MissingVariable key /\
      Forall (is_set env) before /\
      ~ is_set env key.
Proof.
  induction keys as [|k rest IH]; intros config t e H; cbn in H; [ discriminate | ].
  destruct (getenv env k) as [value|] eqn:Hget.
  - destruct (String.eqb value "") eqn:Hempty.
    + inversion H; subst. exists [], k, rest.
      repeat split; [ constructor | ].
      intros Hset. apply (is_set_test _ _ _ Hget) in Hset. congruence.
    + apply IH in H as (before & key & after & -> & -> & Hall & Hnot).
      exists (k :: before), key, after.
      repeat split; [ | assumption ].
      constructor; [ now apply (is_set_test _ _ _ Hget) | assumption ].
  - inversion H; subst. exists [], k, rest.
    repeat split; [ constructor | now apply unset_is_not_set ].
Qed.

Lemma read_keys_at_first_unset env before key after :
  forall config,
    Forall (is_set env) before ->
    ~ is_set env key ->
    read_keys env (before ++ key :: after) config
    = ([ALog ERROR "Missing required environment variable"],
       Failed (MissingVariable key)).
Proof.
  induction before as [|k rest IH]; intros config Hall Hnot; cbn.
  - destruct (getenv env key) as [value|] eqn:Hget; [ | reflexivity ].
    destruct (String.eqb value "") eqn:Hempty; [ reflexivity | ].
    exfalso. apply Hnot. now apply (is_set_test _ _ _ Hget).
  - inversion Hall as [|k' rest' Hk Hrest]; subst.
    destruct Hk as (value & Hget & Hne). rewrite Hget.
    apply String.eqb_neq in Hne. rewrite Hne. now apply IH.
Qed.

Lemma convert_never_reports_a_variable py_int key config e :
  convert py_int key config = Failed e -> forall k, e <> MissingVariable k.
Proof.
  unfold convert. intros H k.
  destruct (dict_get key config) as [[z|s|b|d]|]; try (inversion H; discriminate).
  destruct (py_int s); inversion H; discriminate.
Qed.

(** X12. [load_config] raises the error about a missing variable for a
    key exactly when that key is the first of the seven required keys, in
    their order, that is unset or empty. *)
Theorem load_config_names_first_unset_variable py_int env key :
  (exists t, load_config py_int env = (t, Failed (MissingVariable key))) <->
  (exists before after,
      required_keys = before ++ key :: after /\
      Forall (is_set env) before /\
      ~ is_set env key).
Proof.
  split.
  - intros (t & H). unfold load_config in H.
    destruct (read_keys env required_keys []) as [t0 [config|e]] eqn:Hread.
    + exfalso.
      destruct (convert py_int "BLOCK_PROCESSING_INTERVAL_SECONDS" config)
        as [config1|e1] eqn:H1.
      * destruct (convert py_int "CONFIRMATION_BLOCKS" config1) as [config2|e2] eqn:H2;
          [ discriminate | ].
        inversion H; subst.
        exact (convert_never_reports_a_variable _ _ _ _ H2 key eq_refl).
      * inversion H; subst.
        exact (convert_never_reports_a_variable _ _ _ _ H1 key eq_refl).
    + inversion H; subst.
      apply read_keys_failed in Hread as (before & k & after & Hk & He & Hall & Hnot).
      inversion He; subst k. now exists before, after.
  - intros (before & after & Hkeys & Hall & Hnot).
    unfold load_config. rewrite Hkeys.
    rewrite read_keys_at_first_unset by assumption. eexists. reflexivity.
Qed.

Lemma load_config_names_first_unset_variable_witness :
  exists t,
    load_config plain_decimal environ_without_key
    = (t, Failed (MissingVariable "RELAYER_PRIVATE_KEY")).
Proof.
  apply (proj2 (load_config_names_first_unset_variable plain_decimal
                  environ_without_key "RELAYER_PRIVATE_KEY")).
  exists ["SOURCE_CHAIN_RPC_URL"; "DESTINATION_CHAIN_RPC_URL";
          "SOURCE_BRIDGE_CONTRACT_ADDRESS"; "DESTINATION_BRIDGE_CONTRACT_ADDRESS"],
         ["BLOCK_PROCESSING_INTERVAL_SECONDS"; "CONFIRMATION_BLOCKS"].
  split; [ reflexivity | ]. split.
  - repeat constructor; eexists; (split; [ reflexivity | discriminate ]).
  - intros (v & Hv & Hne). cbn in Hv. inversion Hv; subst. now apply Hne.
Defined.

(** X13. [load_config] succeeds exactly when the seven required
    variables are set and not empty and [int] accepts the texts of the
    interval and of the confirmations; the configuration it returns then
    holds the seven keys in their order, the first five with the text of
    the environment unchanged and the last two with the integers, which
    are the two entries the loop reads; no sign or range check is applied
    to them. *)
Theorem load_config_succeeds_exactly_when py_int env t config :
  load_config py_int env = (t, Started config) <->
  exists source_rpc destination_rpc source_address destination_address relayer_key
         interval_text confirmations_text interval confirmations,
    (getenv env "SOURCE_CHAIN_RPC_URL" = Some source_rpc /\ source_rpc <> "") /\
    (getenv env "DESTINATION_CHAIN_RPC_URL" = Some destination_rpc /\
     destination_rpc <> "") /\
    (getenv env "SOURCE_BRIDGE_CONTRACT_ADDRESS" = Some source_address /\
     source_address <> "") /\
    (getenv env "DESTINATION_BRIDGE_CONTRACT_ADDRESS" = Some destination_address /\
     destination_address <> "") /\
    (getenv env "RELAYER_PRIVATE_KEY" = Some relayer_key /\ relayer_key <> "") /\
    (getenv env "BLOCK_PROCESSING_INTERVAL_SECONDS" = Some interval_text /\
     interval_text <> "") /\
    (getenv env "CONFIRMATION_BLOCKS" = Some confirmations_text /\
     confirmations_text <> "") /\
    py_int interval_text = Some interval /\
    py_int confirmations_text = Some confirmations /\
    t = [ALog INFO "Configuration loaded and validated successfully."] /\
    config = [("SOURCE_CHAIN_RPC_URL", PStr source_rpc);
              ("DESTINATION_CHAIN_RPC_URL", PStr destination_rpc);
              ("SOURCE_BRIDGE_CONTRACT_ADDRESS", PStr source_address);
              ("DESTINATION_BRIDGE_CONTRACT_ADDRESS", PStr destination_address);
              ("RELAYER_PRIVATE_KEY", PStr relayer_key);
              ("BLOCK_PROCESSING_INTERVAL_SECONDS", PInt interval);
              ("CONFIRMATION_BLOCKS", PInt confirmations)] /\
    config_of config
    = Some {| CONFIRMATION_BLOCKS := confirmations;
              BLOCK_PROCESSING_INTERVAL_SECONDS := interval |}.
Proof.
  unfold load_config, required_keys. cbn [read_keys]. split.
  - intros H.
    repeat match type of H with
           | context [getenv env ?k] =>
               let v := fresh "v" in
               let Hv := fresh "Hv" in
               let Hn := fresh "Hn" in
               destruct (getenv env k) as [v|] eqn:Hv; [ | discriminate ];
               destruct (String.eqb v "") eqn:Hn; [ discriminate | ];
               apply String.eqb_neq in Hn
           end.
    cbn in H.
    destruct (py_int v4) as [interval|] eqn:Hi; [ | discriminate ].
    cbn in H.
    destruct (py_int v5) as [confirmations|] eqn:Hc; [ | discriminate ].
    inversion H; subst; clear H.
    exists v, v0, v1, v2, v3, v4, v5, interval, confirmations.
    repeat split; assumption.
  - intros (v & v0 & v1 & v2 & v3 & v4 & v5 & interval & confirmations
            & [H1 N1] & [H2 N2] & [H3 N3] & [H4 N4] & [H5 N5] & [H6 N6] & [H7 N7]
            & Hi & Hc & -> & -> & _).
    apply String.eqb_neq in N1, N2, N3, N4, N5, N6, N7.
    rewrite H1, N1, H2, N2, H3, N3, H4, N4, H5, N5, H6, N6, H7, N7.
    cbn. rewrite Hi. cbn. rewrite Hc. reflexivity.
Qed.

Lemma load_config_succeeds_exactly_when_witness :
  load_config plain_decimal sample_environ
  = ([ALog INFO "Configuration loaded and validated successfully."],
     Started
       [("SOURCE_CHAIN_RPC_URL", PStr "http://source");
        ("DESTINATION_CHAIN_RPC_URL", PStr "http://destination");
        ("SOURCE_BRIDGE_CONTRACT_ADDRESS", PStr "0x01");
        ("DESTINATION_BRIDGE_CONTRACT_ADDRESS", PStr "0x02");
        ("RELAYER_PRIVATE_KEY", PStr "0x03");
        ("BLOCK_PROCESSING_INTERVAL_SECONDS", PInt 15);
        ("CONFIRMATION_BLOCKS", PInt 5)]).
Proof.
  apply (proj2 (load_config_succeeds_exactly_when plain_decimal sample_environ _ _)).
  exists "http://source", "http://destination", "0x01", "0x02", "0x03", "15", "5", 15, 5.
  repeat split; discriminate.
Defined.

(** ** The constructors *)






(** X15. A required variable that is unset or empty stops the program
    before anything else happens: whatever the nodes and the disk would
    answer, the main block logs the loading, the missing variable and the
    failure to start, and builds no connector. *)
Theorem main_stops_at_first_unset_variable py_int env w before key after :
  required_keys = before ++ key :: after ->
  Forall (is_set env) before ->
  ~ is_set env key ->
  main_start py_int env w
  = ([ALog INFO "Loading configuration";
      ALog ERROR "Missing required environment variable";
      ALog CRITICAL "Application failed to start"],
     Failed (MissingVariable key)).
Proof.
  intros Hkeys Hall Hnot. unfold main_start, load_config.
  rewrite Hkeys, read_keys_at_first_unset by assumption. reflexivity.
Qed.

Lemma main_stops_at_first_unset_variable_witness :
  main_start plain_decimal environ_without_key sample_world
  = ([ALog INFO "Loading configuration";
      ALog ERROR "Missing required environment variable";
      ALog CRITICAL "Application failed to start"],
     Failed (MissingVariable "RELAYER_PRIVATE_KEY")).
Proof.
  apply (main_stops_at_first_unset_variable plain_decimal environ_without_key sample_world
           ["SOURCE_CHAIN_RPC_URL"; "DESTINATION_CHAIN_RPC_URL";
            "SOURCE_BRIDGE_CONTRACT_ADDRESS"; "DESTINATION_BRIDGE_CONTRACT_ADDRESS"]
           "RELAYER_PRIVATE_KEY"
           ["BLOCK_PROCESSING_INTERVAL_SECONDS"; "CONFIRMATION_BLOCKS"]).
  - reflexivity.
  - repeat constructor; eexists; (split; [ reflexivity | discriminate ]).
  - intros (v & Hv & Hne). cbn in Hv. inversion Hv; subst. now apply Hne.
Defined.

(** X16. A run never asks for a block at or below the checkpoint it
    started from: every window of its trace starts above it.  A process
    that started without a state file, hence from the height of the chain
    at that moment, never scans a block of that height or lower. *)
Theorem run_windows_lie_above_checkpoint config cycles :
  forall p,
    Forall (fun window => last_scanned_block p < fst window /\ fst window <= snd window)
      (filter_requests (trace_of (run_loop config cycles p))).
Proof.
  induction cycles as [|env rest IH]; intros p.
  - constructor.
  - rewrite (proj1 (run_loop_cons config env rest p)), filter_requests_app.
    rewrite (proj1 (run_cycle_measures config env p)).
    apply Forall_app. split.
    + destruct (scan_for_events_summary (source env) (write env)
                  (CONFIRMATION_BLOCKS config) p)
        as (_ & _ & _ & [(_ & _ & Hr)|[(l & Hle & _ & _ & Hr)|(l & ev & Hle & _ & _ & Hr)]]);
        rewrite Hr; repeat constructor; cbn; lia.
    + eapply Forall_impl; [ | apply IH ].
      intros [f t] [Hlow Hwf]. split; [ | assumption ].
      pose proof (run_cycle_never_lowers config env p). cbn in *. lia.
Qed.

(** Started without a state file at height 20, the scanner takes 20 as
    its checkpoint; what it later asks for starts at block 21. *)
Example fresh_start_skips_the_past :
  last_scanned_block (state_of (boot FMissing (chain_node 20 sample_logs))) = 20 /\
  filter_requests
    (trace_of (run_loop sample_config
                 [{| source := chain_node 30 sample_logs; write := WriteOk;
                     destination := mixed_dest |}]
                 (state_of (boot FMissing (chain_node 20 sample_logs)))))
  = [(21, 25)].
Proof. split; reflexivity. Qed.
